(** * PayosService: payment links, webhook reconciliation, order codes

    A shallow embedding of [src/payos/payos.service.ts] and the properties
    of its reconciliation state machine.

    - JavaScript numbers are integers ([Z]) or [NaN]; strings are [string].
    - The three repositories are tables: lists of rows, in storage order.
    - Every call made to a collaborator (a repository, the provider, a
      gateway, the logger) is a _site_, named by its line in the source;
      an oracle says which sites throw.  A call that throws has no
      effect.  The logger call of the outer [catch] of [handleWebhook]
      (line 492) is a site: the function is rejected when it throws.
      The logger call of an outermost [catch] that rethrows (lines 118,
      144, 236, 252) is not a site: the function is rejected either way,
      and the call is taken to complete.
    - Control flow follows JavaScript completions: a statement completes
      normally, by [return], or by [throw]. *)

From Stdlib Require Import ZArith List String Ascii Bool Lia.
Import ListNotations.

Local Open Scope string_scope.
Local Open Scope Z_scope.

(** ** JavaScript numbers and strings *)

Module JS.

(** A [number] of the program: an integer or [NaN]. *)
Inductive number : Type :=
| Num (z : Z)
| NaN.

Definition digit_char (d : Z) : ascii := ascii_of_nat (48 + Z.to_nat d).

Definition digit_val (c : ascii) : option Z :=
  let n := Z.of_nat (nat_of_ascii c) in
  if (48 <=? n) && (n <=? 57) then Some (n - 48) else None.

(** Decimal digits of a non-negative integer, most significant first. *)
Fixpoint digits_aux (fuel : nat) (n : Z) (acc : string) : string :=
  match fuel with
  | O => acc
  | S k =>
      let acc' := String (digit_char (n mod 10)) acc in
      if n / 10 =? 0 then acc' else digits_aux k (n / 10) acc'
  end.

Definition digits (n : Z) : string :=
  digits_aux (S (Z.to_nat (Z.log2 n))) n "".

(** [Number.prototype.toString] on an integer. *)
Definition toString (n : Z) : string :=
  if n <? 0 then String "-" (digits (- n)) else digits n.

Fixpoint repeat_char (k : nat) (c : ascii) : string :=
  match k with
  | O => ""
  | S k' => String c (repeat_char k' c)
  end.

(** [String.prototype.padStart] with a one-character filler. *)
Definition padStart (target : nat) (c : ascii) (s : string) : string :=
  repeat_char (target - String.length s) c ++ s.

(** The longest prefix of decimal digits, read left to right; [seen] tells
    whether a digit has been read. *)
Fixpoint parse_digits (s : string) (acc : Z) (seen : bool) : number :=
  match s with
  | EmptyString => if seen then Num acc else NaN
  | String c s' =>
      match digit_val c with
      | Some d => parse_digits s' (acc * 10 + d) true
      | None => if seen then Num acc else NaN
      end
  end.

Definition negate (n : number) : number :=
  match n with Num z => Num (- z) | NaN => NaN end.

(** [parseInt] in radix 10: an optional sign, then digits.  Leading white
    space and the [0x] prefix are left out: the strings parsed here are
    built from [toString] alone. *)
Definition parseInt (s : string) : number :=
  match s with
  | EmptyString => NaN
  | String c s' =>
      if (c =? "-")%char then negate (parse_digits s' 0 false)
      else if (c =? "+")%char then parse_digits s' 0 false
      else parse_digits s 0 false
  end.

(** [Math.min] of a number and an integer. *)
Definition Math_min (a : number) (b : Z) : number :=
  match a with Num z => Num (Z.min z b) | NaN => NaN end.

(** Truthiness of an optional, possibly empty string, as [||] tests it. *)
Definition or_str (o : option string) (dflt : string) : string :=
  match o with
  | Some s => if (s =? "")%string then dflt else s
  | None => dflt
  end.

(** Truthiness of an optional integer: [null], [undefined] and [0] are
    falsy. *)
Definition truthy_num (o : option Z) : option Z :=
  match o with
  | Some z => if z =? 0 then None else Some z
  | None => None
  end.

End JS.

(** ** generateOrderCode (lines 510-523) *)

(** [timestamp] is [Date.now()], [random] is
    [Math.floor(Math.random() * 1000)]. *)
Definition generateOrderCode (timestamp random : Z) : JS.number :=
  let timestampPart := Z.rem timestamp 100000 in
  let orderCode :=
    JS.parseInt (JS.toString timestampPart
                 ++ JS.padStart 3 "0" (JS.toString random)) in
  JS.Math_min orderCode 2147483647.

(** ** Data model *)

(** The entity declarations ([entities/payment.entity],
    [entities/booking.entity], [entities/seat-status.entity]) are imported
    by the service and are not part of the sources.  Rows carry the
    columns the service reads or writes; identifiers are integers, and an
    absent (null or undefined) column is [None]. *)

Module PaymentStatus.
(** Modelled from the spec: the enum [PaymentStatus] of
    [entities/payment.entity], with the statuses of section 3. *)
Inductive t : Type := PENDING | COMPLETED | FAILED | CANCELLED.
End PaymentStatus.

Module BookingStatus.
(** Modelled from the spec: the enum [BookingStatus] of
    [entities/booking.entity], with the statuses section 3 names. *)
Inductive t : Type := PENDING | PAID | CANCELLED.
End BookingStatus.

Module SeatState.
(** Modelled from the spec: the enum [SeatState] of
    [entities/seat-status.entity], with the states of section 3. *)
Inductive t : Type := AVAILABLE | LOCKED | RESERVED | BOOKED.
End SeatState.

Module Payment.
(** Modelled from the spec: the entity [Payment], with the columns of
    section 3 under the names the service uses. *)
Record t : Type := mk {
  id : option Z;                 (* undefined until the row is saved *)
  bookingId : option Z;
  provider : string;
  transactionRef : string;
  payosOrderCode : JS.number;
  amount : Z;
  status : PaymentStatus.t
}.

Definition with_id (i : option Z) (p : t) : t :=
  mk i (bookingId p) (provider p) (transactionRef p) (payosOrderCode p)
     (amount p) (status p).

Definition with_status (st : PaymentStatus.t) (p : t) : t :=
  mk (id p) (bookingId p) (provider p) (transactionRef p)
     (payosOrderCode p) (amount p) st.

(** The filter [{ payosOrderCode: orderCode }]. *)
Definition has_order_code (orderCode : Z) (p : t) : bool :=
  match payosOrderCode p with
  | JS.Num z => z =? orderCode
  | JS.NaN => false
  end.
End Payment.

Module Booking.
(** Modelled from the spec: the entity [Booking], with the columns of
    section 3 under the names the service uses. *)
Record t : Type := mk {
  id : Z;
  status : BookingStatus.t;
  cancelledAt : option Z
}.

Definition with_status (st : BookingStatus.t) (b : t) : t :=
  mk (id b) st (cancelledAt b).

Definition cancel (at_ : Z) (b : t) : t :=
  mk (id b) BookingStatus.CANCELLED (Some at_).

(** The filter [{ id: bookingId }]. *)
Definition has_id (bookingId : Z) (b : t) : bool := id b =? bookingId.
End Booking.

Module SeatStatus.
(** Modelled from the spec: the entity [SeatStatus], with the columns of
    section 3 under the names the service uses. *)
Record t : Type := mk {
  id : Z;
  seatId : Z;
  tripId : Z;
  bookingId : option Z;
  state : SeatState.t;
  lockedUntil : option Z
}.

(** The patch [{ state: BOOKED, lockedUntil: null }]. *)
Definition book (s : t) : t :=
  mk (id s) (seatId s) (tripId s) (bookingId s) SeatState.BOOKED None.

(** The patch [{ state: AVAILABLE, bookingId: null, lockedUntil: null }]. *)
Definition release (s : t) : t :=
  mk (id s) (seatId s) (tripId s) None SeatState.AVAILABLE None.

(** The filter [{ bookingId: bookingId }]. *)
Definition of_booking (b : Z) (s : t) : bool :=
  match bookingId s with
  | Some b' => b' =? b
  | None => false
  end.
End SeatStatus.

(** The metadata object of [notifyBookingStatusChanged]. *)
Inductive Metadata : Type :=
| PaymentCompleted (paymentMethod transactionId : string)
| PaymentFailed (paymentMethod transactionId reason : string).

(** A call received by one of the two gateways. *)
Inductive Notification : Type :=
| BookingStatusChanged (bookingId : Z) (status : BookingStatus.t)
                       (metadata : Metadata)
| SeatBooked (tripId : Z) (seatIds : list Z)
| SeatsAvailable (tripId : Z) (seatIds : list Z).

(** The state outside the service: three tables and the calls sent to the
    gateways, oldest first. *)
Record World : Type := mkWorld {
  payments : list Payment.t;
  bookings : list Booking.t;
  seats : list SeatStatus.t;
  notified : list Notification
}.

(** DTOs and provider payloads, with the fields the service reads and
    writes. *)

Record WebhookData : Type := mkWebhookData {
  wh_orderCode : Z;
  wh_amount : Z;
  wh_description : string;
  wh_code : string;
  wh_desc : string
}.

Record WebhookResponseDto : Type := mkWebhookResponse {
  success : bool;
  message : string
}.

Record Item : Type := mkItem {
  it_name : string;
  it_quantity : Z;
  it_price : Z;
  it_unit : option string;
  it_taxPercentage : option Z
}.

Record CreatePaymentDto : Type := mkCreatePaymentDto {
  dto_bookingId : option Z;
  dto_amount : Z;
  dto_description : string;
  dto_returnUrl : option string;
  dto_cancelUrl : option string;
  dto_items : option (list Item)
}.

Record PaymentData : Type := mkPaymentData {
  pd_orderCode : JS.number;
  pd_amount : Z;
  pd_description : string;
  pd_returnUrl : string;
  pd_cancelUrl : string;
  pd_items : list Item
}.

Record CreatePaymentLinkResponse : Type := mkCreatePaymentLinkResponse {
  pl_paymentLinkId : option string;
  pl_checkoutUrl : option string;
  pl_orderCode : Z;
  pl_accountNumber : option string;
  pl_accountName : option string;
  pl_amount : Z;
  pl_description : option string;
  pl_status : option string
}.

Record CancelledPaymentLink : Type := mkCancelledPaymentLink {
  cp_id : option string;
  cp_orderCode : option Z;
  cp_amount : option Z;
  cp_status : option string
}.

Record PaymentResponseDto : Type := mkPaymentResponse {
  checkoutUrl : string;
  orderCode : Z;
  accountNumber : string;
  accountName : string;
  r_amount : Z;
  description : string;
  transactionId : string;
  r_status : string;
  paymentId : option Z
}.

(** ** Collaborators *)

(** What the service reads from outside during one call: which sites
    throw, the clock, the random draw, the configuration, the provider's
    answers and the identifier the database gives to a new row. *)
Record Env : Type := mkEnv {
  faults : nat -> bool;
  now : Z;
  random : Z;
  config : string -> option string;
  payos_create : PaymentData -> CreatePaymentLinkResponse;
  payos_cancel : Z -> CancelledPaymentLink;
  new_id : Z
}.

(** [Repository.update(filter, patch)]: every matching row is patched; the
    result counts them. *)
Definition update_where {A : Type} (filter : A -> bool) (patch : A -> A)
    (table : list A) : list A :=
  map (fun row => if filter row then patch row else row) table.

Definition affected {A : Type} (filter : A -> bool) (table : list A) : nat :=
  List.length (List.filter filter table).

Module paymentRepository.
Definition findOne (orderCode : Z) (w : World) : option Payment.t * World :=
  (find (Payment.has_order_code orderCode) (payments w), w).

Definition update (orderCode : Z) (patch : Payment.t -> Payment.t)
    (w : World) : nat * World :=
  (affected (Payment.has_order_code orderCode) (payments w),
   mkWorld (update_where (Payment.has_order_code orderCode) patch
                         (payments w))
           (bookings w) (seats w) (notified w)).

(** [save] of a new entity: the row gets its identifier and is
    appended. *)
Definition save (i : Z) (p : Payment.t) (w : World) : Payment.t * World :=
  let saved := Payment.with_id (Some i) p in
  (saved,
   mkWorld (payments w ++ [saved]) (bookings w) (seats w) (notified w)).
End paymentRepository.

Module bookingRepository.
Definition findOne (bookingId : Z) (w : World) : option Booking.t * World :=
  (find (Booking.has_id bookingId) (bookings w), w).

Definition update (bookingId : Z) (patch : Booking.t -> Booking.t)
    (w : World) : nat * World :=
  (affected (Booking.has_id bookingId) (bookings w),
   mkWorld (payments w)
           (update_where (Booking.has_id bookingId) patch (bookings w))
           (seats w) (notified w)).
End bookingRepository.

Module seatStatusRepository.
Definition find (bookingId : Z) (w : World) : list SeatStatus.t * World :=
  (List.filter (SeatStatus.of_booking bookingId) (seats w), w).

Definition update (bookingId : Z) (patch : SeatStatus.t -> SeatStatus.t)
    (w : World) : nat * World :=
  (affected (SeatStatus.of_booking bookingId) (seats w),
   mkWorld (payments w) (bookings w)
           (update_where (SeatStatus.of_booking bookingId) patch (seats w))
           (notified w)).
End seatStatusRepository.

(** A gateway call is recorded after the earlier ones. *)
Definition notify (n : Notification) (w : World) : unit * World :=
  (tt, mkWorld (payments w) (bookings w) (seats w) (notified w ++ [n])).

(** ** Completions, faults and the service monad *)

(** The error thrown by the faulting call at [site]. *)
Inductive exn : Type := Fault (site : nat).

(** How a statement completes. *)
Inductive completion (R A : Type) : Type :=
| Normal (a : A)
| Return (r : R)
| Throw (x : exn).

Arguments Normal {R A} a.
Arguments Return {R A} r.
Arguments Throw {R A} x.

(** How an [async] function settles. *)
Inductive outcome (R : Type) : Type :=
| Resolved (r : R)
| Rejected (x : exn).

Arguments Resolved {R} r.
Arguments Rejected {R} x.

(** A statement of a function returning [R], over the state [St]. *)
Definition M (St R A : Type) : Type :=
  Env -> St -> completion R A * St.

Section Monad.

Context {St R : Type}.

Definition ret {A : Type} (a : A) : M St R A := fun _ s => (Normal a, s).

Definition bind {A B : Type} (m : M St R A) (k : A -> M St R B) : M St R B :=
  fun e s =>
    match m e s with
    | (Normal a, s') => k a e s'
    | (Return r, s') => (Return r, s')
    | (Throw x, s') => (Throw x, s')
    end.

Definition return_ {A : Type} (r : R) : M St R A := fun _ s => (Return r, s).

Definition throw {A : Type} (x : exn) : M St R A := fun _ s => (Throw x, s).

Definition ask : M St R Env := fun e s => (Normal e, s).

Definition gets {A : Type} (f : St -> A) : M St R A :=
  fun _ s => (Normal (f s), s).

Definition modify (f : St -> St) : M St R unit := fun _ s => (Normal tt, f s).

(** [try { body } catch (x) { handler x }] *)
Definition try_catch {A : Type} (body : M St R A) (handler : exn -> M St R A)
    : M St R A :=
  fun e s =>
    match body e s with
    | (Throw x, s') => handler x e s'
    | other => other
    end.

(** A call to a collaborator at [site]: it throws when the oracle says so,
    and then changes nothing. *)
Definition call {A : Type} (site : nat) (op : St -> A * St) : M St R A :=
  fun e s =>
    if faults e site then (Throw (Fault site), s)
    else let (a, s') := op s in (Normal a, s').

(** A call to the logger from inside a [try] block. *)
Definition log (site : nat) : M St R unit := call site (fun s => (tt, s)).

(** The logger call of an outermost handler that rethrows (lines 118,
    144, 236 and 252).  The function is rejected whether or not the
    logger completes there: it is taken to complete, so that the error
    rethrown is the one caught. *)
Definition log_handler : M St R unit := ret tt.

End Monad.

(** The settlement of an [async] function whose body is [m]. *)
Definition invoke {St R : Type} (m : M St R R) (e : Env) (s : St)
    : outcome R * St :=
  match m e s with
  | (Normal r, s') => (Resolved r, s')
  | (Return r, s') => (Resolved r, s')
  | (Throw x, s') => (Rejected x, s')
  end.

Declare Scope service_scope.
Delimit Scope service_scope with service.

Notation "x <- c1 ;; c2" := (bind c1 (fun x => c2))
  (at level 61, c1 at next level, right associativity) : service_scope.
Notation "c1 ;; c2" := (bind c1 (fun _ => c2))
  (at level 61, right associativity) : service_scope.

Local Open Scope service_scope.

(** ** createPaymentLink (lines 58-121) *)

Definition copy_item (item : Item) : Item :=
  mkItem (it_name item) (it_quantity item) (it_price item) (it_unit item)
         (it_taxPercentage item).

Definition createPaymentLink_try (createPaymentDto : CreatePaymentDto)
    : M World PaymentResponseDto PaymentResponseDto :=
  e <- ask ;;
  let orderCode := generateOrderCode (now e) (random e) in
  let paymentData :=
    mkPaymentData
      orderCode
      (dto_amount createPaymentDto)
      (dto_description createPaymentDto)
      (JS.or_str (dto_returnUrl createPaymentDto)
         (JS.or_str (config e "PAYOS_RETURN_URL")
            "http://localhost:8000/payment/success"))
      (JS.or_str (dto_cancelUrl createPaymentDto)
         (JS.or_str (config e "PAYOS_CANCEL_URL")
            "http://localhost:8000/payment/cancel"))
      (match dto_items createPaymentDto with
       | Some items => map copy_item items
       | None => []
       end) in
  paymentLink <- call 87 (fun w => (payos_create e paymentData, w)) ;;
  log 91 ;;
  let payment :=
    Payment.mk None
      (dto_bookingId createPaymentDto)
      "PAYOS"
      (JS.or_str (pl_paymentLinkId paymentLink) "")
      orderCode
      (dto_amount createPaymentDto)
      PaymentStatus.PENDING in
  payment <- call 104 (paymentRepository.save (new_id e) payment) ;;
  return_ (mkPaymentResponse
             (JS.or_str (pl_checkoutUrl paymentLink) "")
             (pl_orderCode paymentLink)
             (JS.or_str (pl_accountNumber paymentLink) "")
             (JS.or_str (pl_accountName paymentLink) "")
             (pl_amount paymentLink)
             (JS.or_str (pl_description paymentLink) "")
             (JS.or_str (pl_paymentLinkId paymentLink) "")
             (JS.or_str (pl_status paymentLink) "PENDING")
             (Payment.id payment)).

Definition createPaymentLink (createPaymentDto : CreatePaymentDto)
    : Env -> World -> outcome PaymentResponseDto * World :=
  invoke (try_catch (createPaymentLink_try createPaymentDto)
            (fun error => log_handler ;; throw error)).

(** ** cancelPayment (lines 152-242) *)

Definition cancelPayment_try (orderCode : Z)
    : M World PaymentResponseDto PaymentResponseDto :=
  e <- ask ;;
  cancelledPayment <- call 155 (fun w => (payos_cancel e orderCode, w)) ;;
  log 157 ;;
  payment <- call 160 (paymentRepository.findOne orderCode) ;;
  match payment with
  | Some payment =>
      call 166 (paymentRepository.update orderCode
                  (Payment.with_status PaymentStatus.CANCELLED)) ;;
      log 171 ;;
      match JS.truthy_num (Payment.bookingId payment) with
      | Some bookingId =>
          call 177 (bookingRepository.update bookingId
                      (Booking.cancel (now e))) ;;
          log 185 ;;
          seatStatuses <- call 190 (seatStatusRepository.find bookingId) ;;
          call 196 (seatStatusRepository.update bookingId
                      SeatStatus.release) ;;
          log 205 ;;
          match seatStatuses with
          | first :: _ =>
              let tripId := SeatStatus.tripId first in
              let seatIds := map SeatStatus.seatId seatStatuses in
              call 214 (notify (SeatsAvailable tripId seatIds)) ;;
              log 216
          | [] => ret tt
          end
      | None => ret tt
      end
  | None => ret tt
  end ;;
  return_ (mkPaymentResponse
             ""
             (match JS.truthy_num (cp_orderCode cancelledPayment) with
              | Some oc => oc
              | None => orderCode
              end)
             ""
             ""
             (match JS.truthy_num (cp_amount cancelledPayment) with
              | Some a => a
              | None => 0
              end)
             "Payment cancelled"
             (JS.or_str (cp_id cancelledPayment) "")
             (JS.or_str (cp_status cancelledPayment) "CANCELLED")
             None).

Definition cancelPayment (orderCode : Z)
    : Env -> World -> outcome PaymentResponseDto * World :=
  invoke (try_catch (cancelPayment_try orderCode)
            (fun error => log_handler ;; throw error)).

(** ** handleWebhook (lines 257-508) *)

(** The function's frame: the world and its three [let] variables,
    [undefined] ([None]) until assigned. *)
Record Frame : Type := mkFrame {
  world : World;
  payment : option Payment.t;
  seatStatuses : option (list SeatStatus.t);
  booking : option Booking.t
}.

Definition enter (w : World) : Frame := mkFrame w None None None.

Definition in_world {A : Type} (op : World -> A * World) (f : Frame)
    : A * Frame :=
  let (a, w) := op (world f) in
  (a, mkFrame w (payment f) (seatStatuses f) (booking f)).

Definition set_payment (v : option Payment.t) (f : Frame) : Frame :=
  mkFrame (world f) v (seatStatuses f) (booking f).

Definition set_seatStatuses (v : list SeatStatus.t) (f : Frame) : Frame :=
  mkFrame (world f) (payment f) (Some v) (booking f).

Definition set_booking (v : option Booking.t) (f : Frame) : Frame :=
  mkFrame (world f) (payment f) (seatStatuses f) v.

Definition db_error : WebhookResponseDto :=
  mkWebhookResponse false "Database error when fetching payment record".

Definition not_found : WebhookResponseDto :=
  mkWebhookResponse false "Payment record not found".

Definition update_failed : WebhookResponseDto :=
  mkWebhookResponse false "Failed to update payment status".

Definition processed : WebhookResponseDto :=
  mkWebhookResponse true "Webhook processed successfully".

Definition failed_to_process : WebhookResponseDto :=
  mkWebhookResponse false "Failed to process webhook".

(** Lines 345-411: the payment succeeded. *)
Definition confirm_booking (orderCode bookingId : Z)
    : M Frame WebhookResponseDto unit :=
  try_catch
    (call 348 (in_world (bookingRepository.update bookingId
                           (Booking.with_status BookingStatus.PAID))) ;;
     log 352)
    (fun bookingUpdateError => log 356) ;;
  try_catch
    (call 361 (in_world (seatStatusRepository.update bookingId
                           SeatStatus.book)) ;;
     log 368)
    (fun seatUpdateError => log 372) ;;
  booking <- gets booking ;;
  match booking with
  | Some _ =>
      try_catch
        (call 378 (in_world (notify
           (BookingStatusChanged bookingId BookingStatus.PAID
              (PaymentCompleted "payos" (JS.toString orderCode))))) ;;
         log 387)
        (fun gatewayError => log 389)
  | None => log 392
  end ;;
  seatStatuses <- gets seatStatuses ;;
  match seatStatuses with
  | Some ((first :: _) as seatStatuses) =>
      try_catch
        (let tripId := SeatStatus.tripId first in
         let seatIds := map SeatStatus.seatId seatStatuses in
         call 401 (in_world (notify (SeatBooked tripId seatIds))) ;;
         log 403)
        (fun seatNotificationError => log 407)
  | _ => log 410
  end.

(** Lines 412-484: the payment failed. *)
Definition release_booking (orderCode bookingId : Z)
    : M Frame WebhookResponseDto unit :=
  e <- ask ;;
  try_catch
    (call 415 (in_world (bookingRepository.update bookingId
                           (Booking.cancel (now e)))) ;;
     log 422)
    (fun bookingCancelError => log 426) ;;
  try_catch
    (call 431 (in_world (seatStatusRepository.update bookingId
                           SeatStatus.release)) ;;
     log 439)
    (fun seatReleaseError => log 443) ;;
  booking <- gets booking ;;
  match booking with
  | Some _ =>
      try_catch
        (call 449 (in_world (notify
           (BookingStatusChanged bookingId BookingStatus.CANCELLED
              (PaymentFailed "payos" (JS.toString orderCode)
                 "Payment failed")))) ;;
         log 459)
        (fun gatewayError => log 461)
  | None => log 464
  end ;;
  seatStatuses <- gets seatStatuses ;;
  match seatStatuses with
  | Some ((first :: _) as seatStatuses) =>
      try_catch
        (let tripId := SeatStatus.tripId first in
         let seatIds := map SeatStatus.seatId seatStatuses in
         call 473 (in_world (notify (SeatsAvailable tripId seatIds))) ;;
         log 475)
        (fun seatNotificationError => log 479)
  | _ => log 482
  end.

(** Lines 259-490: the body of the outer [try]. *)
Definition handleWebhook_try (webhookData : WebhookData)
    : M Frame WebhookResponseDto WebhookResponseDto :=
  let orderCode := wh_orderCode webhookData in
  let code := wh_code webhookData in
  let success := (code =? "00")%string in
  log 264 ;;
  log 267 ;;
  try_catch
    (found <- call 274 (in_world (paymentRepository.findOne orderCode)) ;;
     modify (set_payment found) ;;
     log 277)
    (fun dbError =>
       log 279 ;;
       return_ db_error) ;;
  payment <- gets payment ;;
  match payment with
  | None =>
      log 287 ;;
      return_ not_found
  | Some payment =>
      log 294 ;;
      let paymentStatus :=
        if success then PaymentStatus.COMPLETED else PaymentStatus.FAILED in
      try_catch
        (call 302 (in_world (paymentRepository.update orderCode
                               (Payment.with_status paymentStatus))) ;;
         log 306)
        (fun updateError =>
           log 310 ;;
           return_ update_failed) ;;
      match JS.truthy_num (Payment.bookingId payment) with
      | Some bookingId =>
          log 319 ;;
          try_catch
            (found <- call 324 (in_world
                                  (seatStatusRepository.find bookingId)) ;;
             modify (set_seatStatuses found) ;;
             log 328)
            (fun seatError => log 330) ;;
          try_catch
            (found <- call 336 (in_world
                                  (bookingRepository.findOne bookingId)) ;;
             modify (set_booking found) ;;
             log 340)
            (fun bookingError => log 342) ;;
          if success then confirm_booking orderCode bookingId
          else release_booking orderCode bookingId
      | None => ret tt
      end ;;
      return_ processed
  end.

(** The outer [catch] (lines 491-507) logs the error of the body and
    returns the structured failure.  No [try] encloses its logger call
    (line 492): when that call throws, the function is rejected. *)
Definition handleWebhook_body (webhookData : WebhookData)
    : M Frame WebhookResponseDto WebhookResponseDto :=
  try_catch (handleWebhook_try webhookData)
    (fun error => log 492 ;; return_ failed_to_process).

Definition handleWebhook (webhookData : WebhookData) (e : Env) (w : World)
    : outcome WebhookResponseDto * World :=
  let (result, frame) := invoke (handleWebhook_body webhookData) e (enter w) in
  (result, world frame).

(** ** The constructor (lines 30-56) *)

(** The credentials handed to the provider client. *)
Record Credentials : Type := mkCredentials {
  clientId : string;
  apiKey : string;
  checksumKey : string
}.

(** A configuration value as a condition: [undefined] and the empty
    string are falsy. *)
Definition truthy_str (value : option string) : option string :=
  match value with
  | Some s => if (s =? "")%string then None else Some s
  | None => None
  end.

Definition configuration_missing : string :=
  "PayOS configuration is missing. Please check environment variables.".

(** The constructor: the message of the [Error] it throws, or the
    credentials of the client it builds. *)
Definition PayosService_constructor (configService : string -> option string)
    : string + Credentials :=
  let clientId := configService "PAYOS_CLIENT_ID" in
  let apiKey := configService "PAYOS_API_KEY" in
  let checksumKey := configService "PAYOS_CHECKSUM_KEY" in
  match truthy_str clientId, truthy_str apiKey, truthy_str checksumKey with
  | Some clientId, Some apiKey, Some checksumKey =>
      inr (mkCredentials clientId apiKey checksumKey)
  | _, _, _ => inl configuration_missing
  end.

(** ** getPaymentInformation (lines 123-150) *)

Record Transaction : Type := mkTransaction {
  tx_accountNumber : option string;
  tx_virtualAccountName : option string;
  tx_description : option string
}.

Record PaymentLink : Type := mkPaymentLink {
  pk_id : string;
  pk_orderCode : Z;
  pk_amount : Z;
  pk_status : string;
  pk_transactions : option (list Transaction)
}.

(** [array[i]] for an integer index: [undefined] outside the array. *)
Definition array_index {A : Type} (array : list A) (i : Z) : option A :=
  if i <? 0 then None else nth_error array (Z.to_nat i).

(** [paymentInfo.transactions?.[paymentInfo.transactions.length - 1]] *)
Definition latestTransaction (paymentInfo : PaymentLink)
    : option Transaction :=
  match pk_transactions paymentInfo with
  | Some transactions =>
      array_index transactions (Z.of_nat (List.length transactions) - 1)
  | None => None
  end.

(** [latestTransaction?.field || ''] *)
Definition field_or_empty (latest : option Transaction)
    (field : Transaction -> option string) : string :=
  match latest with
  | Some transaction => JS.or_str (field transaction) ""
  | None => ""
  end.

(** [payos_get] is the provider's [paymentRequests.get]. *)
Definition getPaymentInformation_try (payos_get : Z -> PaymentLink)
    (orderCode : Z) : M World PaymentResponseDto PaymentResponseDto :=
  paymentInfo <- call 125 (fun w => (payos_get orderCode, w)) ;;
  let latestTransaction := latestTransaction paymentInfo in
  return_ (mkPaymentResponse
             ""
             (pk_orderCode paymentInfo)
             (field_or_empty latestTransaction tx_accountNumber)
             (field_or_empty latestTransaction tx_virtualAccountName)
             (pk_amount paymentInfo)
             (field_or_empty latestTransaction tx_description)
             (pk_id paymentInfo)
             (pk_status paymentInfo)
             None).

Definition getPaymentInformation (payos_get : Z -> PaymentLink)
    (orderCode : Z) : Env -> World -> outcome PaymentResponseDto * World :=
  invoke (try_catch (getPaymentInformation_try payos_get orderCode)
            (fun error => log_handler ;; throw error)).

(** ** verifyWebhookData (lines 244-255) *)



(** ** Vocabulary of the properties *)

(** Every call completes. *)
Definition no_faults (e : Env) : Prop := forall site, faults e site = false.

(** The call at [site] throws and no other does. *)
Definition only_fault (site : nat) (e : Env) : Prop :=
  forall s, faults e s = Nat.eqb s site.


(** A Payment row before and after reconciliation to the status [st]. *)
Definition payment_settled (orderCode : Z) (st : PaymentStatus.t)
    (pre post : Payment.t) : Prop :=
  Payment.id post = Payment.id pre /\
  Payment.bookingId post = Payment.bookingId pre /\
  Payment.provider post = Payment.provider pre /\
  Payment.transactionRef post = Payment.transactionRef pre /\
  Payment.payosOrderCode post = Payment.payosOrderCode pre /\
  Payment.amount post = Payment.amount pre /\
  (Payment.payosOrderCode pre = JS.Num orderCode ->
   Payment.status post = st) /\
  (Payment.payosOrderCode pre <> JS.Num orderCode ->
   Payment.status post = Payment.status pre).

(** A Booking row before and after the booking [b] is paid. *)
Definition booking_paid (b : Z) (pre post : Booking.t) : Prop :=
  Booking.id post = Booking.id pre /\
  Booking.cancelledAt post = Booking.cancelledAt pre /\
  (Booking.id pre = b -> Booking.status post = BookingStatus.PAID) /\
  (Booking.id pre <> b -> Booking.status post = Booking.status pre).

(** A Booking row before and after the booking [b] is cancelled at [t]. *)
Definition booking_cancelled (b t : Z) (pre post : Booking.t) : Prop :=
  Booking.id post = Booking.id pre /\
  (Booking.id pre = b ->
   Booking.status post = BookingStatus.CANCELLED /\
   Booking.cancelledAt post = Some t) /\
  (Booking.id pre <> b -> post = pre).

(** A SeatStatus row before and after the seats of [b] are booked. *)
Definition seat_booked (b : Z) (pre post : SeatStatus.t) : Prop :=
  SeatStatus.id post = SeatStatus.id pre /\
  SeatStatus.seatId post = SeatStatus.seatId pre /\
  SeatStatus.tripId post = SeatStatus.tripId pre /\
  SeatStatus.bookingId post = SeatStatus.bookingId pre /\
  (SeatStatus.bookingId pre = Some b ->
   SeatStatus.state post = SeatState.BOOKED /\
   SeatStatus.lockedUntil post = None) /\
  (SeatStatus.bookingId pre <> Some b -> post = pre).

(** A SeatStatus row before and after the seats of [b] are released. *)
Definition seat_released (b : Z) (pre post : SeatStatus.t) : Prop :=
  SeatStatus.id post = SeatStatus.id pre /\
  SeatStatus.seatId post = SeatStatus.seatId pre /\
  SeatStatus.tripId post = SeatStatus.tripId pre /\
  (SeatStatus.bookingId pre = Some b ->
   SeatStatus.state post = SeatState.AVAILABLE /\
   SeatStatus.bookingId post = None /\
   SeatStatus.lockedUntil post = None) /\
  (SeatStatus.bookingId pre <> Some b -> post = pre).

(** A SeatStatus row that kept its references and changed, if at all, to
    BOOKED with no lock expiry. *)
Definition seat_kept (pre post : SeatStatus.t) : Prop :=
  SeatStatus.id post = SeatStatus.id pre /\
  SeatStatus.seatId post = SeatStatus.seatId pre /\
  SeatStatus.tripId post = SeatStatus.tripId pre /\
  SeatStatus.bookingId post = SeatStatus.bookingId pre /\
  (post = pre \/
   (SeatStatus.state post = SeatState.BOOKED /\
    SeatStatus.lockedUntil post = None)).

(** The three tables of a world, without the gateway calls. *)
Definition records (w : World)
    : list Payment.t * list Booking.t * list SeatStatus.t :=
  (payments w, bookings w, seats w).

(** The notifications of a reconciliation: the booking's, when the Booking
    row was found, then the seats', when a seat row was found. *)
Definition booking_notice (found : option Booking.t) (n : Notification)
    : list Notification :=
  match found with Some _ => [n] | None => [] end.

Definition seat_notice (found : list SeatStatus.t)
    (n : Z -> list Z -> Notification) : list Notification :=
  match found with
  | first :: _ => [n (SeatStatus.tripId first) (map SeatStatus.seatId found)]
  | [] => []
  end.

(** How often a notification of a given kind was sent. *)
Definition is_booking_paid (b : Z) (n : Notification) : bool :=
  match n with
  | BookingStatusChanged b' BookingStatus.PAID _ => b' =? b
  | _ => false
  end.

Definition is_seat_booked (n : Notification) : bool :=
  match n with SeatBooked _ _ => true | _ => false end.

Definition count (f : Notification -> bool) (l : list Notification) : nat :=
  List.length (List.filter f l).

(** Every run of [m] from a state in [Inv] ends in [Inv]; what it returns
    is in [Q], and the value of a normal completion is in [N]. *)
Definition keeps {St R A : Type} (Inv : St -> Prop) (Q : R -> Prop)
    (N : A -> Prop) (m : M St R A) : Prop :=
  forall e s,
    Inv s ->
    Inv (snd (m e s)) /\
    match fst (m e s) with
    | Normal a => N a
    | Return r => Q r
    | Throw _ => True
    end.

Definition any {A : Type} : A -> Prop := fun _ => True.

Definition none {A : Type} : A -> Prop := fun _ => False.

(** The results [handleWebhook] can resolve to. *)
Definition returned (r : WebhookResponseDto) : Prop :=
  In r [db_error; not_found; update_failed; processed].

Definition structured (r : WebhookResponseDto) : Prop :=
  returned r \/ r = failed_to_process.

(** The notifications sent by the call that took [w] to [w']. *)
Definition emitted_by (w w' : World) : list Notification :=
  skipn (List.length (notified w)) (notified w').

(** The settlement and final world of [handleWebhook] when every call
    completes, in closed form ([handleWebhook_quiet] proves it). *)
Definition reconciled (d : WebhookData) (e : Env) (w : World)
    : outcome WebhookResponseDto * World :=
  let oc := wh_orderCode d in
  let paid := (wh_code d =? "00")%string in
  match find (Payment.has_order_code oc) (payments w) with
  | None => (Resolved not_found, w)
  | Some p =>
      let ps :=
        update_where (Payment.has_order_code oc)
          (Payment.with_status
             (if paid then PaymentStatus.COMPLETED else PaymentStatus.FAILED))
          (payments w) in
      match JS.truthy_num (Payment.bookingId p) with
      | None =>
          (Resolved processed, mkWorld ps (bookings w) (seats w) (notified w))
      | Some b =>
          let found_booking := find (Booking.has_id b) (bookings w) in
          let found_seats := filter (SeatStatus.of_booking b) (seats w) in
          if paid then
            (Resolved processed,
             mkWorld ps
               (update_where (Booking.has_id b)
                  (Booking.with_status BookingStatus.PAID) (bookings w))
               (update_where (SeatStatus.of_booking b) SeatStatus.book
                  (seats w))
               (notified w
                ++ booking_notice found_booking
                     (BookingStatusChanged b BookingStatus.PAID
                        (PaymentCompleted "payos" (JS.toString oc)))
                ++ seat_notice found_seats SeatBooked))
          else
            (Resolved processed,
             mkWorld ps
               (update_where (Booking.has_id b) (Booking.cancel (now e))
                  (bookings w))
               (update_where (SeatStatus.of_booking b) SeatStatus.release
                  (seats w))
               (notified w
                ++ booking_notice found_booking
                     (BookingStatusChanged b BookingStatus.CANCELLED
                        (PaymentFailed "payos" (JS.toString oc)
                           "Payment failed"))
                ++ seat_notice found_seats SeatsAvailable))
      end
  end.

(** Decimal strings. *)

Fixpoint all_digits (s : string) : bool :=
  match s with
  | EmptyString => true
  | String c s' =>
      match JS.digit_val c with Some _ => all_digits s' | None => false end
  end.

(** Value of a digit string read after the prefix value [acc]. *)
Fixpoint dval (s : string) (acc : Z) : Z :=
  match s with
  | EmptyString => acc
  | String c s' =>
      match JS.digit_val c with
      | Some d => dval s' (acc * 10 + d)
      | None => acc
      end
  end.

Definition slen (s : string) : Z := Z.of_nat (String.length s).

(** ** Sample data: the example of the specification *)

Definition quiet : nat -> bool := fun _ => false.

(** The oracle under which the call at [site] throws and no other does. *)
Definition failing (site : nat) : nat -> bool := fun s => Nat.eqb s site.

(** The oracle of a logger that is down when [handleWebhook] runs: its
    first call (line 264) throws, and so does the call of the outer
    handler (line 492) that the first error leads to. *)
Definition logger_down : nat -> bool :=
  fun s => Nat.eqb s 264 || Nat.eqb s 492.

Definition sample_env (clock : Z) (oracle : nat -> bool) : Env :=
  mkEnv oracle clock 42 (fun _ => None)
    (fun pd =>
       mkCreatePaymentLinkResponse (Some "link-1") (Some "https://pay/1")
         12345 None None (pd_amount pd) None None)
    (fun oc => mkCancelledPaymentLink (Some "link-1") (Some oc) None None)
    8.

Definition sample_payment : Payment.t :=
  Payment.mk (Some 7) (Some 42) "PAYOS" "link-1" (JS.Num 12345) 500000
    PaymentStatus.PENDING.

Definition sample_booking : Booking.t :=
  Booking.mk 42 BookingStatus.PENDING None.

Definition seat_A : SeatStatus.t :=
  SeatStatus.mk 1 101 9 (Some 42) SeatState.LOCKED (Some 5000).

Definition seat_B : SeatStatus.t :=
  SeatStatus.mk 2 102 9 (Some 42) SeatState.LOCKED (Some 5000).

Definition seat_C : SeatStatus.t :=
  SeatStatus.mk 3 103 9 None SeatState.AVAILABLE None.

Definition sample_world : World :=
  mkWorld [sample_payment] [sample_booking] [seat_A; seat_B; seat_C] [].

(** The same booking before any seat row refers to it. *)
Definition seatless_world : World :=
  mkWorld [sample_payment] [sample_booking] [seat_C] [].

Definition paid_event : WebhookData :=
  mkWebhookData 12345 500000 "ticket" "00" "success".

Definition declined_event : WebhookData :=
  mkWebhookData 12345 500000 "ticket" "01" "declined".

Definition unknown_event : WebhookData :=
  mkWebhookData 99999 500000 "ticket" "00" "success".

Definition sample_dto : CreatePaymentDto :=
  mkCreatePaymentDto (Some 42) 500000 "ticket" None None None.

(** ** Vocabulary of the further properties *)

(** The columns of a row that no operation of the service writes. *)
Definition payment_key (p : Payment.t)
    : option Z * option Z * string * string * JS.number * Z :=
  (Payment.id p, Payment.bookingId p, Payment.provider p,
   Payment.transactionRef p, Payment.payosOrderCode p, Payment.amount p).

Definition seat_key (s : SeatStatus.t) : Z * Z * Z :=
  (SeatStatus.id s, SeatStatus.seatId s, SeatStatus.tripId s).

(** The same rows, in the same order, under the same keys. *)
Definition same_rows (w w' : World) : Prop :=
  map payment_key (payments w') = map payment_key (payments w) /\
  map Booking.id (bookings w') = map Booking.id (bookings w) /\
  map seat_key (seats w') = map seat_key (seats w).

(** A Payment row whose status is as before or [st]. *)
Definition payment_at_most (st : PaymentStatus.t) (pre post : Payment.t)
    : Prop :=
  Payment.status post = Payment.status pre \/ Payment.status post = st.

(** A Booking row that is as before or PAID, with the cancellation time
    it had. *)
Definition booking_at_most_paid (pre post : Booking.t) : Prop :=
  Booking.cancelledAt post = Booking.cancelledAt pre /\
  (Booking.status post = Booking.status pre \/
   Booking.status post = BookingStatus.PAID).

(** A Booking row that is as before or CANCELLED with a cancellation
    time. *)
Definition booking_at_most_cancelled (pre post : Booking.t) : Prop :=
  post = pre \/
  (Booking.status post = BookingStatus.CANCELLED /\
   Booking.cancelledAt post <> None).

(** A SeatStatus row that is as before or released. *)
Definition seat_at_most_released (pre post : SeatStatus.t) : Prop :=
  post = pre \/
  (SeatStatus.state post = SeatState.AVAILABLE /\
   SeatStatus.bookingId post = None /\
   SeatStatus.lockedUntil post = None).

(** The notifications of a payment that went through, and of one that did
    not. *)
Definition announces_payment (n : Notification) : bool :=
  match n with
  | BookingStatusChanged _ BookingStatus.PAID (PaymentCompleted _ _) => true
  | SeatBooked _ _ => true
  | _ => false
  end.

Definition announces_release (n : Notification) : bool :=
  match n with
  | BookingStatusChanged _ BookingStatus.CANCELLED (PaymentFailed _ _ _) =>
      true
  | SeatsAvailable _ _ => true
  | _ => false
  end.

Definition announces_seats_available (n : Notification) : bool :=
  match n with
  | SeatsAvailable _ _ => true
  | _ => false
  end.

(** The gateway calls of [w'] are those of [w] followed by calls of the
    kind [kind]. *)
Definition appends (kind : Notification -> bool) (w w' : World) : Prop :=
  exists sent,
    notified w' = (notified w ++ sent)%list /\ forallb kind sent = true.

(** The reply of [cancelPayment] (lines 225-234). *)
Definition cancel_response (reply : CancelledPaymentLink) (orderCode : Z)
    : PaymentResponseDto :=
  mkPaymentResponse
    ""
    (match JS.truthy_num (cp_orderCode reply) with
     | Some oc => oc
     | None => orderCode
     end)
    ""
    ""
    (match JS.truthy_num (cp_amount reply) with
     | Some a => a
     | None => 0
     end)
    "Payment cancelled"
    (JS.or_str (cp_id reply) "")
    (JS.or_str (cp_status reply) "CANCELLED")
    None.

(** The final world of [cancelPayment] when every call completes, in
    closed form ([cancelPayment_quiet] proves it). *)
Definition cancelled (orderCode : Z) (e : Env) (w : World) : World :=
  match find (Payment.has_order_code orderCode) (payments w) with
  | None => w
  | Some p =>
      let ps :=
        update_where (Payment.has_order_code orderCode)
          (Payment.with_status PaymentStatus.CANCELLED) (payments w) in
      match JS.truthy_num (Payment.bookingId p) with
      | None => mkWorld ps (bookings w) (seats w) (notified w)
      | Some b =>
          mkWorld ps
            (update_where (Booking.has_id b) (Booking.cancel (now e))
               (bookings w))
            (update_where (SeatStatus.of_booking b) SeatStatus.release
               (seats w))
            (notified w
             ++ seat_notice (filter (SeatStatus.of_booking b) (seats w))
                  SeatsAvailable)
      end
  end.

(** A Booking row before and after the booking [b], cancelled at [t], is
    paid by a late success event. *)
Definition booking_paid_after_cancel (b t : Z) (pre post : Booking.t)
    : Prop :=
  Booking.id post = Booking.id pre /\
  (Booking.id pre = b ->
   Booking.status post = BookingStatus.PAID /\
   Booking.cancelledAt post = Some t) /\
  (Booking.id pre <> b -> post = pre).

(** From a state in [P], a run of [m] ends in [N] when it completes
    normally, in [Q] when it returns and in [E] when it throws. *)
Definition triple {St R A : Type} (P : St -> Prop) (m : M St R A)
    (N : A -> St -> Prop) (Q : R -> St -> Prop) (E : St -> Prop) : Prop :=
  forall e s,
    P s ->
    match m e s with
    | (Normal a, s') => N a s'
    | (Return r, s') => Q r s'
    | (Throw _, s') => E s'
    end.

(** What a result of [handleWebhook] says about the world [w'] it leaves,
    started in [w] on the event [d]. *)
Definition told_by (d : WebhookData) (w : World) (r : WebhookResponseDto)
    (w' : World) : Prop :=
  (r = db_error \/ r = not_found -> w' = w) /\
  (r = update_failed ->
   bookings w' = bookings w /\ seats w' = seats w /\
   notified w' = notified w) /\
  (r = processed ->
   (exists p,
      find (Payment.has_order_code (wh_orderCode d)) (payments w) = Some p) /\
   Forall2 (payment_settled (wh_orderCode d)
              (if (wh_code d =? "00")%string
               then PaymentStatus.COMPLETED else PaymentStatus.FAILED))
     (payments w) (payments w')).

(** The gateway a notification goes to. *)
Definition to_booking_gateway (n : Notification) : bool :=
  match n with
  | BookingStatusChanged _ _ _ => true
  | _ => false
  end.

Definition to_seat_gateway (n : Notification) : bool :=
  match n with
  | SeatBooked _ _ | SeatsAvailable _ _ => true
  | _ => false
  end.

(** No notification or one, of the given kind. *)
Definition at_most_one (kind : Notification -> bool)
    (sent : list Notification) : Prop :=
  (List.length sent <= 1)%nat /\ forallb kind sent = true.

(** From [w] to [w'] the booking gateway was called at most once, and
    then the seat gateway at most once. *)
Definition notified_once (w w' : World) : Prop :=
  exists to_booking to_seats,
    notified w' = (notified w ++ to_booking ++ to_seats)%list /\
    at_most_one to_booking_gateway to_booking /\
    at_most_one to_seat_gateway to_seats.

(** A payment link with two transactions on file. *)
Definition sample_link : PaymentLink :=
  mkPaymentLink "link-1" 12345 500000 "PAID"
    (Some [mkTransaction (Some "111") (Some "first") (Some "old");
           mkTransaction (Some "222") None (Some "")]).

(** * Properties *)

(** *** Decimal printing and parsing *)

Section Decimal.

Import JS.

Lemma digit_val_char d :
  0 <= d < 10 -> digit_val (digit_char d) = Some d.
Proof.
  intros H. unfold digit_val, digit_char.
  rewrite nat_ascii_embedding by lia.
  replace (Z.of_nat (48 + Z.to_nat d)) with (48 + d) by lia.
  destruct (48 <=? 48 + d) eqn:E1; [| lia].
  destruct (48 + d <=? 57) eqn:E2; [| lia].
  cbv [andb]. f_equal. lia.
Qed.

Lemma digit_not_sign c d :
  digit_val c = Some d -> (c =? "-")%char = false /\ (c =? "+")%char = false.
Proof.
  destruct c as [[] [] [] [] [] [] [] []]; vm_compute; intros H;
    try discriminate; split; reflexivity.
Qed.

Lemma append_assoc (a b c : string) : (a ++ b) ++ c = a ++ (b ++ c).
Proof. induction a as [| x a IH]; simpl; [reflexivity | now rewrite IH]. Qed.

Lemma length_append (a b : string) :
  String.length (a ++ b) = (String.length a + String.length b)%nat.
Proof. induction a as [| x a IH]; simpl; [reflexivity | now rewrite IH]. Qed.

Lemma all_digits_app a b :
  all_digits a = true -> all_digits b = true -> all_digits (a ++ b) = true.
Proof.
  induction a as [| x a IH]; simpl; intros Ha Hb; [exact Hb |].
  destruct (digit_val x); [auto | discriminate].
Qed.

Lemma dval_app a b acc :
  all_digits a = true -> dval (a ++ b) acc = dval b (dval a acc).
Proof.
  revert acc. induction a as [| x a IH]; simpl; intros acc Ha; [reflexivity |].
  destruct (digit_val x); [auto | discriminate].
Qed.

Lemma dval_shift s : forall acc,
  all_digits s = true -> dval s acc = acc * 10 ^ slen s + dval s 0.
Proof.
  unfold slen.
  induction s as [| x s IH]; simpl String.length; intros acc Hs.
  - simpl. lia.
  - cbn [dval all_digits] in Hs |- *.
    destruct (digit_val x) as [d |]; [| discriminate].
    rewrite (IH (acc * 10 + d) Hs), (IH (0 * 10 + d) Hs).
    rewrite Nat2Z.inj_succ, Z.pow_succ_r by lia. ring.
Qed.

Lemma parse_digits_all s : forall acc seen,
  all_digits s = true ->
  parse_digits s acc seen =
    if seen || negb (s =? "")%string then Num (dval s acc) else NaN.
Proof.
  induction s as [| x s IH]; simpl; intros acc seen Hs.
  - now rewrite orb_false_r.
  - destruct (digit_val x) as [d |]; [| discriminate].
    rewrite (IH _ true Hs). simpl. now rewrite orb_true_r.
Qed.

(** What [digits_aux] prepends: a non-empty digit string of value [n],
    with no more digits than [n] needs. *)
Lemma digits_aux_spec fuel : forall n acc,
  (0 < fuel)%nat -> 0 <= n < 2 ^ Z.of_nat fuel ->
  exists s,
    digits_aux fuel n acc = s ++ acc /\
    all_digits s = true /\
    (0 < String.length s)%nat /\
    dval s 0 = n /\
    (String.length s = 1%nat \/ 10 ^ (slen s - 1) <= n).
Proof.
  induction fuel as [| k IH]; intros n acc Hf Hn; [lia |].
  assert (Hd : 0 <= n mod 10 < 10) by (apply Z.mod_pos_bound; lia).
  assert (Hq : n = 10 * (n / 10) + n mod 10) by (apply Z.div_mod; lia).
  simpl digits_aux.
  destruct (n / 10 =? 0) eqn:E.
  - apply Z.eqb_eq in E.
    exists (String (digit_char (n mod 10)) "").
    cbn [append all_digits dval String.length].
    rewrite (digit_val_char _ Hd). cbn [dval].
    repeat split; auto; lia.
  - apply Z.eqb_neq in E.
    assert (Hq0 : 0 <= n / 10) by (apply Z.div_pos; lia).
    assert (Hk : (0 < k)%nat).
    { destruct k; [| lia]. change (2 ^ Z.of_nat 1) with 2 in Hn. lia. }
    assert (Hb : n / 10 < 2 ^ Z.of_nat k).
    { rewrite Nat2Z.inj_succ, Z.pow_succ_r in Hn by lia. lia. }
    destruct (IH (n / 10) (String (digit_char (n mod 10)) acc) Hk
                 (conj Hq0 Hb)) as (s & Hs & Hall & Hlen & Hval & Hmin).
    set (d := String (digit_char (n mod 10)) "").
    assert (Hdd : all_digits d = true).
    { unfold d. cbn [all_digits]. now rewrite (digit_val_char _ Hd). }
    exists (s ++ d). repeat split.
    + rewrite Hs, append_assoc. reflexivity.
    + now apply all_digits_app.
    + rewrite length_append. lia.
    + rewrite (dval_app _ _ _ Hall), Hval. unfold d. cbn [dval].
      rewrite (digit_val_char _ Hd). lia.
    + right. unfold slen in *. rewrite length_append. unfold d.
      cbn [String.length].
      replace (Z.of_nat (String.length s + 1) - 1)
        with (Z.succ (Z.of_nat (String.length s) - 1)) by lia.
      rewrite Z.pow_succ_r by lia.
      destruct Hmin as [H1 | Hge].
      * rewrite H1. change (Z.of_nat 1 - 1) with 0. rewrite Z.pow_0_r. lia.
      * lia.
Qed.

Lemma digits_spec n :
  0 <= n ->
  all_digits (digits n) = true /\
  (0 < String.length (digits n))%nat /\
  dval (digits n) 0 = n /\
  (String.length (digits n) = 1%nat \/ 10 ^ (slen (digits n) - 1) <= n).
Proof.
  intros Hn. unfold digits.
  assert (Hb : 0 <= n < 2 ^ Z.of_nat (S (Z.to_nat (Z.log2 n)))).
  { split; [exact Hn |].
    rewrite Nat2Z.inj_succ, Z2Nat.id by apply Z.log2_nonneg.
    destruct (Z.eq_dec n 0) as [-> | Hnz]; [reflexivity |].
    apply Z.log2_spec. lia. }
  destruct (digits_aux_spec _ n "" (Nat.lt_0_succ _) Hb)
    as (s & Hs & Hall & Hlen & Hval & Hmin).
  assert (Hnil : forall t : string, t ++ "" = t).
  { induction t as [| x t IH]; simpl; [reflexivity | now rewrite IH]. }
  rewrite Hs, Hnil. auto.
Qed.

Lemma digits_length_le n m :
  0 <= n < 10 ^ Z.of_nat m -> (0 < m)%nat ->
  (String.length (digits n) <= m)%nat.
Proof.
  intros [Hn Hlt] Hm.
  destruct (digits_spec n Hn) as (_ & _ & _ & [H1 | Hge]); [lia |].
  destruct (Nat.le_gt_cases (String.length (digits n)) m) as [| Hgt]; [auto |].
  exfalso. unfold slen in Hge.
  assert (10 ^ Z.of_nat m <= 10 ^ (Z.of_nat (String.length (digits n)) - 1)).
  { apply Z.pow_le_mono_r; lia. }
  lia.
Qed.

Lemma repeat_zero_digits k : all_digits (repeat_char k "0") = true.
Proof. induction k; simpl; auto. Qed.

Lemma repeat_zero_dval k : dval (repeat_char k "0") 0 = 0.
Proof.
  assert (H : forall k acc, acc = 0 -> dval (repeat_char k "0") acc = 0).
  { clear k. induction k as [| k IH]; simpl; intros acc ->; auto. }
  now apply H.
Qed.

Lemma repeat_char_length k c : String.length (repeat_char k c) = k.
Proof. induction k; simpl; auto. Qed.

(** A random suffix below 1000 is padded to exactly three digits. *)
Lemma pad3_spec r :
  0 <= r < 1000 ->
  let s := padStart 3 "0" (toString r) in
  all_digits s = true /\ String.length s = 3%nat /\ dval s 0 = r.
Proof.
  intros Hr. unfold padStart, toString.
  destruct (r <? 0) eqn:E; [lia |].
  destruct (digits_spec r (proj1 Hr)) as (Hall & Hpos & Hval & _).
  assert (Hle : (String.length (digits r) <= 3)%nat).
  { apply digits_length_le; [change (10 ^ Z.of_nat 3) with 1000; lia | lia]. }
  repeat split.
  - apply all_digits_app; [apply repeat_zero_digits | exact Hall].
  - rewrite length_append, repeat_char_length. lia.
  - rewrite dval_app by apply repeat_zero_digits.
    now rewrite repeat_zero_dval.
Qed.

End Decimal.

(** ** Order codes *)

Lemma parseInt_digits s :
  all_digits s = true -> (0 < String.length s)%nat ->
  JS.parseInt s = JS.Num (dval s 0).
Proof.
  intros Hall Hlen. destruct s as [| c s']; [simpl in Hlen; lia |].
  unfold JS.parseInt.
  assert (Hc : exists d, JS.digit_val c = Some d).
  { cbn [all_digits] in Hall. destruct (JS.digit_val c) as [d |];
      [now exists d | discriminate]. }
  destruct Hc as [d Hd]. destruct (digit_not_sign c d Hd) as [-> ->].
  rewrite (parse_digits_all _ 0 false Hall). reflexivity.
Qed.

(** C9. For a clock reading [timestamp >= 0] and a random draw in
    [0, 999], [generateOrderCode] returns the number whose decimal writing
    is the last five digits of the timestamp followed by the draw padded
    to three digits, that is [timestamp mod 100000 * 1000 + random]; the
    clamp to 2147483647 leaves it as it is, and it lies in
    [0, 2147483647]. *)
Theorem generateOrderCode_range (timestamp random : Z) :
  0 <= timestamp -> 0 <= random < 1000 ->
  generateOrderCode timestamp random
    = JS.Num (timestamp mod 100000 * 1000 + random) /\
  0 <= timestamp mod 100000 * 1000 + random <= 2147483647.
Proof.
  intros Hts Hr.
  assert (Htp : 0 <= timestamp mod 100000 < 100000)
    by (apply Z.mod_pos_bound; lia).
  split; [| lia].
  unfold generateOrderCode.
  rewrite Z.rem_mod_nonneg by lia.
  set (tp := timestamp mod 100000) in *.
  destruct (pad3_spec random Hr) as (Hpall & Hplen & Hpval).
  set (suffix := JS.padStart 3 "0" (JS.toString random)) in *.
  unfold JS.toString at 1. destruct (tp <? 0) eqn:E; [lia |].
  destruct (digits_spec tp (proj1 Htp)) as (Hall & Hlen & Hval & _).
  rewrite parseInt_digits.
  - rewrite (dval_app _ _ _ Hall), Hval, (dval_shift _ tp Hpall), Hpval.
    unfold slen. rewrite Hplen. change (10 ^ Z.of_nat 3) with 1000.
    unfold JS.Math_min. f_equal. lia.
  - now apply all_digits_app.
  - rewrite length_append. lia.
Qed.

Lemma generateOrderCode_range_witness :
  generateOrderCode 1730549999123 7
    = JS.Num (1730549999123 mod 100000 * 1000 + 7) /\
  0 <= 1730549999123 mod 100000 * 1000 + 7 <= 2147483647.
Proof. apply (generateOrderCode_range 1730549999123 7); lia. Defined.

Example generateOrderCode_sample :
  generateOrderCode 1730549999123 7 = JS.Num 99123007.
Proof. reflexivity. Qed.

Example generateOrderCode_small :
  generateOrderCode 100000 0 = JS.Num 0.
Proof. reflexivity. Qed.

(** ** Tables *)

Section Tables.

Context {A : Type}.
Variables (f : A -> bool) (patch : A -> A).

Lemma Forall2_update_where (P : A -> A -> Prop) (table : list A) :
  (forall row, P row (if f row then patch row else row)) ->
  Forall2 P table (update_where f patch table).
Proof.
  intros H. unfold update_where.
  induction table as [| row table IH]; simpl; constructor; auto.
Qed.

(** A patch that keeps the filter's verdict and absorbs an earlier patch
    makes the second update the only one that counts. *)
Lemma update_where_twice (patch' : A -> A) (table : list A) :
  (forall row, f (patch row) = f row) ->
  (forall row, patch' (patch row) = patch' row) ->
  update_where f patch' (update_where f patch table)
    = update_where f patch' table.
Proof.
  intros Hf Hp. unfold update_where. rewrite map_map.
  apply map_ext. intros row.
  destruct (f row) eqn:E; [rewrite Hf, E, Hp | rewrite E]; reflexivity.
Qed.

(** A patch after which a row no longer passes the filter is applied
    once. *)
Lemma update_where_once (table : list A) :
  (forall row, f (patch row) = false) ->
  update_where f patch (update_where f patch table)
    = update_where f patch table.
Proof.
  intros Hf. unfold update_where. rewrite map_map.
  apply map_ext. intros row.
  destruct (f row) eqn:E; [rewrite Hf | rewrite E]; reflexivity.
Qed.

Lemma find_update_where (table : list A) :
  (forall row, f (patch row) = f row) ->
  find f (update_where f patch table) = option_map patch (find f table).
Proof.
  intros Hf. unfold update_where.
  induction table as [| row table IH]; simpl; [reflexivity |].
  destruct (f row) eqn:E; [now rewrite Hf, E | now rewrite E].
Qed.

End Tables.

Lemma has_order_code_spec oc p :
  Payment.has_order_code oc p = true <-> Payment.payosOrderCode p = JS.Num oc.
Proof.
  unfold Payment.has_order_code.
  destruct (Payment.payosOrderCode p) as [z |]; split; intros H;
    try discriminate.
  - apply Z.eqb_eq in H. now subst.
  - injection H as ->. apply Z.eqb_refl.
Qed.

Lemma of_booking_spec b s :
  SeatStatus.of_booking b s = true <-> SeatStatus.bookingId s = Some b.
Proof.
  unfold SeatStatus.of_booking.
  destruct (SeatStatus.bookingId s) as [z |]; split; intros H;
    try discriminate.
  - apply Z.eqb_eq in H. now subst.
  - injection H as ->. apply Z.eqb_refl.
Qed.

Lemma has_id_spec b bk :
  Booking.has_id b bk = true <-> Booking.id bk = b.
Proof. unfold Booking.has_id. apply Z.eqb_eq. Qed.

Lemma payments_settled oc st table :
  Forall2 (payment_settled oc st) table
    (update_where (Payment.has_order_code oc) (Payment.with_status st) table).
Proof.
  apply Forall2_update_where. intros p. unfold payment_settled.
  destruct (Payment.has_order_code oc p) eqn:E; simpl.
  - repeat split; auto. intros Hne. apply has_order_code_spec in E.
    contradiction.
  - repeat split; auto. intros Heq. apply has_order_code_spec in Heq.
    congruence.
Qed.

Lemma bookings_paid b table :
  Forall2 (booking_paid b) table
    (update_where (Booking.has_id b)
       (Booking.with_status BookingStatus.PAID) table).
Proof.
  apply Forall2_update_where. intros bk. unfold booking_paid.
  destruct (Booking.has_id b bk) eqn:E; simpl.
  - repeat split; auto. intros Hne. apply has_id_spec in E. contradiction.
  - repeat split; auto. intros Heq. apply has_id_spec in Heq. congruence.
Qed.

Lemma bookings_cancelled b t table :
  Forall2 (booking_cancelled b t) table
    (update_where (Booking.has_id b) (Booking.cancel t) table).
Proof.
  apply Forall2_update_where. intros bk. unfold booking_cancelled.
  destruct (Booking.has_id b bk) eqn:E; simpl.
  - split; [reflexivity |]. split; [auto |].
    intros Hne. apply has_id_spec in E. contradiction.
  - split; [reflexivity |]. split; [| reflexivity].
    intros Heq. apply has_id_spec in Heq. congruence.
Qed.

Lemma seats_booked b table :
  Forall2 (seat_booked b) table
    (update_where (SeatStatus.of_booking b) SeatStatus.book table).
Proof.
  apply Forall2_update_where. intros s. unfold seat_booked.
  destruct (SeatStatus.of_booking b s) eqn:E; simpl.
  - do 4 (split; [reflexivity |]). split; [auto |].
    intros Hne. apply of_booking_spec in E. contradiction.
  - do 4 (split; [reflexivity |]). split; [| reflexivity].
    intros Heq. apply of_booking_spec in Heq. congruence.
Qed.

Lemma seats_released b table :
  Forall2 (seat_released b) table
    (update_where (SeatStatus.of_booking b) SeatStatus.release table).
Proof.
  apply Forall2_update_where. intros s. unfold seat_released.
  destruct (SeatStatus.of_booking b s) eqn:E; simpl.
  - do 3 (split; [reflexivity |]). split; [auto |].
    intros Hne. apply of_booking_spec in E. contradiction.
  - do 3 (split; [reflexivity |]). split; [| reflexivity].
    intros Heq. apply of_booking_spec in Heq. congruence.
Qed.

(** ** Running the service *)

Ltac unfold_service :=
  cbv beta iota zeta delta
    [handleWebhook handleWebhook_body handleWebhook_try confirm_booking
     release_booking createPaymentLink createPaymentLink_try cancelPayment
     cancelPayment_try invoke try_catch bind ret return_ throw ask gets
     modify call log log_handler in_world enter set_payment set_seatStatuses
     set_booking world payment seatStatuses booking
     paymentRepository.findOne paymentRepository.update
     paymentRepository.save bookingRepository.findOne
     bookingRepository.update seatStatusRepository.find
     seatStatusRepository.update notify].

(** Runs the unfolded service as far as the oracle [H] decides it. *)
Ltac run_with H :=
  repeat first
    [ rewrite H
    | progress cbv beta iota zeta delta [Nat.eqb]
    | progress cbn [payments bookings seats notified] ].

Lemma handleWebhook_quiet d e w :
  no_faults e -> handleWebhook d e w = reconciled d e w.
Proof.
  intros H. unfold reconciled. unfold_service.
  destruct (wh_code d =? "00")%string; run_with H;
    (destruct (find (Payment.has_order_code (wh_orderCode d)) (payments w))
       as [p |]; run_with H; [| reflexivity]);
    (destruct (JS.truthy_num (Payment.bookingId p)) as [b |]; run_with H;
       [| reflexivity]);
    destruct (find (Booking.has_id b) (bookings w));
    destruct (filter (SeatStatus.of_booking b) (seats w));
    run_with H; cbn [booking_notice seat_notice];
    rewrite ?app_nil_r, <- ?app_assoc; reflexivity.
Qed.

Lemma emitted_by_app w w' (l : list Notification) :
  notified w' = (notified w ++ l)%list -> emitted_by w w' = l.
Proof.
  intros H. unfold emitted_by. rewrite H.
  rewrite skipn_app, skipn_all, Nat.sub_diag. reflexivity.
Qed.

(** ** Success events *)

(** C1, counterexample.  The payment of order 12345 refers to booking 42,
    which exists, and no seat row refers to that booking.  The success
    event settles the payment and the booking and sends the booking
    notification, and the guard on line 396 skips [notifySeatBooked]: it
    is sent zero times, not once. *)
Lemma paid_event_without_seats :
  wh_code paid_event = "00" /\
  no_faults (sample_env 1000 quiet) /\
  find (Payment.has_order_code (wh_orderCode paid_event))
       (payments seatless_world) = Some sample_payment /\
  JS.truthy_num (Payment.bookingId sample_payment) = Some 42 /\
  let w' := snd (handleWebhook paid_event (sample_env 1000 quiet)
                   seatless_world) in
  emitted_by seatless_world w'
    = [BookingStatusChanged 42 BookingStatus.PAID
         (PaymentCompleted "payos" "12345")] /\
  count (is_booking_paid 42) (emitted_by seatless_world w') = 1%nat /\
  count is_seat_booked (emitted_by seatless_world w') = 0%nat /\
  count is_seat_booked (emitted_by seatless_world w') <> 1%nat.
Proof.
  repeat split; try reflexivity. vm_compute. discriminate.
Qed.

(** C1, amended.  For a success event ([code = "00"]) whose order code
    matches a Payment with a Booking reference [b], when every call
    completes: [handleWebhook] resolves to the success result; every
    Payment row of that order code is COMPLETED; every Booking row [b] is
    PAID; every SeatStatus row referring to [b] is BOOKED with no lock
    expiry and still refers to [b]; all other rows are as before.  One
    [notifyBookingStatusChanged(b, PAID, ...)] is sent when the Booking
    row was found and none otherwise, then one
    [notifySeatBooked(tripId, seatIds)] when at least one seat row referred
    to [b] and none otherwise; nothing else is sent. *)
Theorem paid_event_settles d e w p b :
  wh_code d = "00" ->
  no_faults e ->
  find (Payment.has_order_code (wh_orderCode d)) (payments w) = Some p ->
  JS.truthy_num (Payment.bookingId p) = Some b ->
  exists w',
    handleWebhook d e w = (Resolved processed, w') /\
    Forall2 (payment_settled (wh_orderCode d) PaymentStatus.COMPLETED)
      (payments w) (payments w') /\
    Forall2 (booking_paid b) (bookings w) (bookings w') /\
    Forall2 (seat_booked b) (seats w) (seats w') /\
    emitted_by w w' =
      (booking_notice (find (Booking.has_id b) (bookings w))
         (BookingStatusChanged b BookingStatus.PAID
            (PaymentCompleted "payos" (JS.toString (wh_orderCode d))))
       ++ seat_notice (filter (SeatStatus.of_booking b) (seats w))
            SeatBooked)%list /\
    count (is_booking_paid b) (emitted_by w w') =
      match find (Booking.has_id b) (bookings w) with
      | Some _ => 1%nat
      | None => 0%nat
      end /\
    count is_seat_booked (emitted_by w w') =
      match filter (SeatStatus.of_booking b) (seats w) with
      | _ :: _ => 1%nat
      | [] => 0%nat
      end.
Proof.
  intros Hc Hq Hp Hb.
  rewrite (handleWebhook_quiet d e w Hq). unfold reconciled.
  rewrite Hp, Hb, Hc. cbn [String.eqb Ascii.eqb Bool.eqb].
  eexists. split; [reflexivity |]. cbn [payments bookings seats].
  split; [apply payments_settled |].
  split; [apply bookings_paid |].
  split; [apply seats_booked |].
  match goal with
  | |- emitted_by ?w0 ?w1 = ?l /\ _ =>
      assert (He : emitted_by w0 w1 = l) by (apply emitted_by_app; reflexivity)
  end.
  rewrite He. split; [reflexivity |].
  destruct (find (Booking.has_id b) (bookings w));
    destruct (filter (SeatStatus.of_booking b) (seats w));
    cbn [booking_notice seat_notice app count List.filter is_booking_paid
         is_seat_booked List.length];
    rewrite ?Z.eqb_refl; cbn [List.length]; split; reflexivity.
Qed.

Lemma paid_event_settles_witness :
  exists w',
    handleWebhook paid_event (sample_env 1000 quiet) sample_world
      = (Resolved processed, w') /\
    Forall2 (payment_settled 12345 PaymentStatus.COMPLETED)
      (payments sample_world) (payments w') /\
    Forall2 (booking_paid 42) (bookings sample_world) (bookings w') /\
    Forall2 (seat_booked 42) (seats sample_world) (seats w') /\
    emitted_by sample_world w' =
      [BookingStatusChanged 42 BookingStatus.PAID
         (PaymentCompleted "payos" "12345");
       SeatBooked 9 [101; 102]] /\
    count (is_booking_paid 42) (emitted_by sample_world w') = 1%nat /\
    count is_seat_booked (emitted_by sample_world w') = 1%nat.
Proof.
  apply (paid_event_settles paid_event (sample_env 1000 quiet) sample_world
           sample_payment 42);
    [reflexivity | intros site; reflexivity | reflexivity | reflexivity].
Defined.

(** The example of the specification, run. *)
Example paid_event_sample :
  handleWebhook paid_event (sample_env 1000 quiet) sample_world
  = (Resolved processed,
     mkWorld
       [Payment.with_status PaymentStatus.COMPLETED sample_payment]
       [Booking.with_status BookingStatus.PAID sample_booking]
       [SeatStatus.book seat_A; SeatStatus.book seat_B; seat_C]
       [BookingStatusChanged 42 BookingStatus.PAID
          (PaymentCompleted "payos" "12345");
        SeatBooked 9 [101; 102]]).
Proof. reflexivity. Qed.

(** ** Failure events *)

(** C2.  For a failure event ([code <> "00"]) whose order code matches a
    Payment with a Booking reference [b], when every call completes:
    every Payment row of that order code is FAILED; every Booking row [b]
    is CANCELLED with the cancellation time set to the clock; every
    SeatStatus row that referred to [b] is AVAILABLE with its booking
    reference and lock expiry cleared; all other rows are as before. *)
Theorem declined_event_settles d e w p b :
  wh_code d <> "00" ->
  no_faults e ->
  find (Payment.has_order_code (wh_orderCode d)) (payments w) = Some p ->
  JS.truthy_num (Payment.bookingId p) = Some b ->
  exists w',
    handleWebhook d e w = (Resolved processed, w') /\
    Forall2 (payment_settled (wh_orderCode d) PaymentStatus.FAILED)
      (payments w) (payments w') /\
    Forall2 (booking_cancelled b (now e)) (bookings w) (bookings w') /\
    Forall2 (seat_released b) (seats w) (seats w').
Proof.
  intros Hc Hq Hp Hb. apply String.eqb_neq in Hc.
  rewrite (handleWebhook_quiet d e w Hq). unfold reconciled.
  rewrite Hp, Hb, Hc.
  eexists. split; [reflexivity |]. cbn [payments bookings seats].
  split; [apply payments_settled |].
  split; [apply bookings_cancelled | apply seats_released].
Qed.

Lemma declined_event_settles_witness :
  exists w',
    handleWebhook declined_event (sample_env 1000 quiet) sample_world
      = (Resolved processed, w') /\
    Forall2 (payment_settled 12345 PaymentStatus.FAILED)
      (payments sample_world) (payments w') /\
    Forall2 (booking_cancelled 42 1000) (bookings sample_world)
      (bookings w') /\
    Forall2 (seat_released 42) (seats sample_world) (seats w').
Proof.
  apply (declined_event_settles declined_event (sample_env 1000 quiet)
           sample_world sample_payment 42);
    [discriminate | intros site; reflexivity | reflexivity | reflexivity].
Defined.

Example declined_event_sample :
  handleWebhook declined_event (sample_env 1000 quiet) sample_world
  = (Resolved processed,
     mkWorld
       [Payment.with_status PaymentStatus.FAILED sample_payment]
       [Booking.cancel 1000 sample_booking]
       [SeatStatus.release seat_A; SeatStatus.release seat_B; seat_C]
       [BookingStatusChanged 42 BookingStatus.CANCELLED
          (PaymentFailed "payos" "12345" "Payment failed");
        SeatsAvailable 9 [101; 102]]).
Proof. reflexivity. Qed.

(** ** Replays *)

(** C3, counterexample.  The failure event is delivered at time 1000 and
    again at time 2000.  The second delivery finds the Payment again and
    cancels the Booking again (line 415) with a new [cancelledAt]: the
    Booking record after two deliveries is not the one after the first. *)
Lemma declined_event_replayed :
  let once :=
    snd (handleWebhook declined_event (sample_env 1000 quiet) sample_world) in
  let twice :=
    snd (handleWebhook declined_event (sample_env 2000 quiet) once) in
  bookings once = [Booking.mk 42 BookingStatus.CANCELLED (Some 1000)] /\
  bookings twice = [Booking.mk 42 BookingStatus.CANCELLED (Some 2000)] /\
  records twice <> records once.
Proof.
  repeat split. vm_compute. discriminate.
Qed.

Lemma with_status_keeps_order_code oc st p :
  Payment.has_order_code oc (Payment.with_status st p)
  = Payment.has_order_code oc p.
Proof. reflexivity. Qed.

Lemma map_update_where {A B : Type} (g : A -> B) f patch patch'
    (table : list A) :
  (forall row, g (patch row) = g (patch' row)) ->
  map g (update_where f patch table) = map g (update_where f patch' table).
Proof.
  intros H. unfold update_where. rewrite !map_map. apply map_ext.
  intros row. destruct (f row); auto.
Qed.

Lemma reconciled_unknown d e w :
  find (Payment.has_order_code (wh_orderCode d)) (payments w) = None ->
  reconciled d e w = (Resolved not_found, w).
Proof. intros Hp. unfold reconciled. now rewrite Hp. Qed.

Lemma reconciled_unbooked d e w p :
  find (Payment.has_order_code (wh_orderCode d)) (payments w) = Some p ->
  JS.truthy_num (Payment.bookingId p) = None ->
  snd (reconciled d e w)
  = mkWorld
      (update_where (Payment.has_order_code (wh_orderCode d))
         (Payment.with_status
            (if (wh_code d =? "00")%string
             then PaymentStatus.COMPLETED else PaymentStatus.FAILED))
         (payments w))
      (bookings w) (seats w) (notified w).
Proof. intros Hp Hb. unfold reconciled. now rewrite Hp, Hb. Qed.

Lemma reconciled_paid d e w p b :
  (wh_code d =? "00")%string = true ->
  find (Payment.has_order_code (wh_orderCode d)) (payments w) = Some p ->
  JS.truthy_num (Payment.bookingId p) = Some b ->
  records (snd (reconciled d e w))
  = (update_where (Payment.has_order_code (wh_orderCode d))
       (Payment.with_status PaymentStatus.COMPLETED) (payments w),
     update_where (Booking.has_id b)
       (Booking.with_status BookingStatus.PAID) (bookings w),
     update_where (SeatStatus.of_booking b) SeatStatus.book (seats w)).
Proof. intros Hc Hp Hb. unfold reconciled. now rewrite Hp, Hb, Hc. Qed.

Lemma reconciled_declined d e w p b :
  (wh_code d =? "00")%string = false ->
  find (Payment.has_order_code (wh_orderCode d)) (payments w) = Some p ->
  JS.truthy_num (Payment.bookingId p) = Some b ->
  records (snd (reconciled d e w))
  = (update_where (Payment.has_order_code (wh_orderCode d))
       (Payment.with_status PaymentStatus.FAILED) (payments w),
     update_where (Booking.has_id b) (Booking.cancel (now e)) (bookings w),
     update_where (SeatStatus.of_booking b) SeatStatus.release (seats w)).
Proof. intros Hc Hp Hb. unfold reconciled. now rewrite Hp, Hb, Hc. Qed.

(** The Payment found by a second delivery is the one of the first, with
    its new status. *)
Lemma find_settled oc st table p :
  find (Payment.has_order_code oc) table = Some p ->
  find (Payment.has_order_code oc)
    (update_where (Payment.has_order_code oc) (Payment.with_status st) table)
  = Some (Payment.with_status st p).
Proof.
  intros Hp. rewrite find_update_where, Hp by reflexivity. reflexivity.
Qed.

Lemma records_eq w ps bs ss :
  records w = (ps, bs, ss) ->
  payments w = ps /\ bookings w = bs /\ seats w = ss.
Proof. unfold records. intros H. injection H as <- <- <-. auto. Qed.

(** C3, amended.  When every call completes in both deliveries of the same
    event: the Payment and SeatStatus tables after the second delivery are
    those after the first, and so are the identifier and status of every
    Booking row; for a success event, and for a failure event replayed at
    the same clock reading, the Booking table is the same too.  The second
    delivery of a failure event writes its own clock reading into
    [cancelledAt]: the records after two deliveries are those of one
    delivery at the time of the second. *)
Theorem replay_converges d e1 e2 w :
  no_faults e1 -> no_faults e2 ->
  let once := snd (handleWebhook d e1 w) in
  let twice := snd (handleWebhook d e2 once) in
  payments twice = payments once /\
  seats twice = seats once /\
  map Booking.id (bookings twice) = map Booking.id (bookings once) /\
  map Booking.status (bookings twice) = map Booking.status (bookings once) /\
  (wh_code d = "00" \/ now e2 = now e1 -> records twice = records once) /\
  records twice = records (snd (handleWebhook d e2 w)).
Proof.
  intros H1 H2. cbv zeta.
  rewrite (handleWebhook_quiet d e1 w H1), (handleWebhook_quiet d e2 w H2).
  rewrite (handleWebhook_quiet d e2 _ H2).
  set (oc := wh_orderCode d).
  destruct (find (Payment.has_order_code oc) (payments w)) as [p |] eqn:Hp.
  2:{ rewrite !(reconciled_unknown d _ w Hp). cbn [snd].
      rewrite ?(reconciled_unknown d _ w Hp). repeat split; reflexivity. }
  destruct (JS.truthy_num (Payment.bookingId p)) as [b |] eqn:Hb.
  2:{ rewrite !(reconciled_unbooked d _ w p Hp Hb).
      erewrite reconciled_unbooked;
        [| cbn [payments]; apply find_settled; exact Hp | exact Hb].
      cbn [payments bookings seats notified records].
      rewrite update_where_twice by reflexivity.
      repeat split; reflexivity. }
  destruct (wh_code d =? "00")%string eqn:Hc.
  - pose proof (reconciled_paid d e1 w p b Hc Hp Hb) as Once.
    pose proof (reconciled_paid d e2 w p b Hc Hp Hb) as Late.
    apply records_eq in Once. destruct Once as (Op & Ob & Os).
    assert (Twice := reconciled_paid d e2 (snd (reconciled d e1 w))
                       (Payment.with_status PaymentStatus.COMPLETED p) b Hc).
    rewrite Op, Ob, Os in Twice.
    specialize (Twice (find_settled _ _ _ _ Hp) Hb).
    rewrite !update_where_twice in Twice by reflexivity.
    assert (Same : records (snd (reconciled d e2 (snd (reconciled d e1 w))))
                   = records (snd (reconciled d e1 w))).
    { rewrite Twice. unfold records. now rewrite Op, Ob, Os. }
    apply records_eq in Same. destruct Same as (Sp & Sb & Ss).
    rewrite Sp, Ss, Sb.
    do 4 (split; [reflexivity |]). split.
    + intros _. unfold records. now rewrite Sp, Sb, Ss.
    + now rewrite Twice, Late.
  - pose proof (reconciled_declined d e1 w p b Hc Hp Hb) as Once.
    pose proof (reconciled_declined d e2 w p b Hc Hp Hb) as Late.
    apply records_eq in Once. destruct Once as (Op & Ob & Os).
    assert (Twice := reconciled_declined d e2 (snd (reconciled d e1 w))
                       (Payment.with_status PaymentStatus.FAILED p) b Hc).
    rewrite Op, Ob, Os in Twice.
    specialize (Twice (find_settled _ _ _ _ Hp) Hb).
    rewrite (update_where_twice _ (Payment.with_status PaymentStatus.FAILED))
      in Twice by reflexivity.
    rewrite (update_where_twice _ (Booking.cancel (now e1))
               (Booking.cancel (now e2))) in Twice by reflexivity.
    rewrite update_where_once in Twice by reflexivity.
    pose proof (records_eq _ _ _ _ Twice) as (Tp & Tb & Ts).
    rewrite Tp, Ts, Tb, Op, Os, Ob.
    do 2 (split; [reflexivity |]).
    do 2 (split; [now apply map_update_where |]). split.
    + intros [Hpaid | Hnow].
      * apply String.eqb_eq in Hpaid. congruence.
      * unfold records. rewrite Tp, Tb, Ts, Op, Ob, Os, Hnow. reflexivity.
    + now rewrite Twice, Late.
Qed.

Lemma replay_converges_witness :
  let once :=
    snd (handleWebhook declined_event (sample_env 1000 quiet) sample_world) in
  let twice :=
    snd (handleWebhook declined_event (sample_env 2000 quiet) once) in
  payments twice = payments once /\
  seats twice = seats once /\
  map Booking.id (bookings twice) = map Booking.id (bookings once) /\
  map Booking.status (bookings twice) = map Booking.status (bookings once) /\
  (wh_code declined_event = "00" \/ 2000 = 1000 ->
   records twice = records once) /\
  records twice
    = records (snd (handleWebhook declined_event (sample_env 2000 quiet)
                      sample_world)).
Proof.
  apply (replay_converges declined_event (sample_env 1000 quiet)
           (sample_env 2000 quiet) sample_world);
    intros site; reflexivity.
Defined.

(** A success event replayed leaves the three tables as they were. *)
Example paid_event_replayed :
  let once :=
    snd (handleWebhook paid_event (sample_env 1000 quiet) sample_world) in
  records (snd (handleWebhook paid_event (sample_env 2000 quiet) once))
  = records once.
Proof. reflexivity. Qed.

(** ** Unknown order codes *)

(** C4.  When no Payment row has the event's order code, whatever calls
    throw: the world is left as it was (no row is written and no
    notification is sent) and the result has [success = false]; when
    every call completes, the message is "Payment record not found".
    The function is rejected only by the logger call of its outer
    handler (line 492), and the world is as it was then too. *)
Theorem unknown_order_is_untouched d e w :
  find (Payment.has_order_code (wh_orderCode d)) (payments w) = None ->
  exists o,
    handleWebhook d e w = (o, w) /\
    match o with
    | Resolved r => success r = false /\ (no_faults e -> r = not_found)
    | Rejected x => x = Fault 492 /\ faults e 492 = true
    end.
Proof.
  intros Hp. unfold_service.
  repeat first
    [ rewrite Hp
    | progress cbv beta iota zeta
    | match goal with
      | |- context [faults e ?site] => destruct (faults e site) eqn:?
      end ];
    (eexists; split; [destruct w; reflexivity |];
     cbv beta iota;
     split; [reflexivity |];
     try exact eq_refl;
     intros Hq; try reflexivity;
     repeat match goal with
            | H : faults e _ = true |- _ => rewrite Hq in H; discriminate
            end).
Qed.

Lemma unknown_order_is_untouched_witness :
  handleWebhook unknown_event (sample_env 1000 quiet) sample_world
  = (Resolved not_found, sample_world).
Proof.
  destruct (unknown_order_is_untouched unknown_event (sample_env 1000 quiet)
              sample_world eq_refl) as (o & Hrun & Ho).
  rewrite Hrun. destruct o as [r | x].
  - destruct Ho as [_ Hmsg]. rewrite Hmsg; [reflexivity |].
    intros site. reflexivity.
  - destruct Ho as [_ Hthrows]. discriminate Hthrows.
Defined.

Example unknown_order_sample :
  handleWebhook unknown_event (sample_env 1000 quiet) sample_world
  = (Resolved not_found, sample_world).
Proof. reflexivity. Qed.

(** A lookup that throws is reported as a database error. *)
Example unknown_order_lookup_fails :
  handleWebhook unknown_event (sample_env 1000 (failing 274)) sample_world
  = (Resolved db_error, sample_world).
Proof. reflexivity. Qed.

(** ** Failures after the Payment write *)

(** C5.  The event's order code matches a Payment with a Booking
    reference [b], and the SeatStatus update (line 361 for a success
    event, line 431 for a failure event) is the one call that throws.
    Then [handleWebhook] still resolves to the success result; the Payment
    rows of that order code are COMPLETED, respectively FAILED; the
    Booking update has been applied; the seat rows are as before; and the
    two notifications that follow the failed step are sent as in a run
    without failure. *)
Theorem seat_update_failure_is_isolated d e w p b :
  find (Payment.has_order_code (wh_orderCode d)) (payments w) = Some p ->
  JS.truthy_num (Payment.bookingId p) = Some b ->
  only_fault (if (wh_code d =? "00")%string then 361%nat else 431%nat) e ->
  exists w',
    handleWebhook d e w = (Resolved processed, w') /\
    seats w' = seats w /\
    if (wh_code d =? "00")%string then
      Forall2 (payment_settled (wh_orderCode d) PaymentStatus.COMPLETED)
        (payments w) (payments w') /\
      Forall2 (booking_paid b) (bookings w) (bookings w') /\
      emitted_by w w' =
        (booking_notice (find (Booking.has_id b) (bookings w))
           (BookingStatusChanged b BookingStatus.PAID
              (PaymentCompleted "payos" (JS.toString (wh_orderCode d))))
         ++ seat_notice (filter (SeatStatus.of_booking b) (seats w))
              SeatBooked)%list
    else
      Forall2 (payment_settled (wh_orderCode d) PaymentStatus.FAILED)
        (payments w) (payments w') /\
      Forall2 (booking_cancelled b (now e)) (bookings w) (bookings w') /\
      emitted_by w w' =
        (booking_notice (find (Booking.has_id b) (bookings w))
           (BookingStatusChanged b BookingStatus.CANCELLED
              (PaymentFailed "payos" (JS.toString (wh_orderCode d))
                 "Payment failed"))
         ++ seat_notice (filter (SeatStatus.of_booking b) (seats w))
              SeatsAvailable)%list.
Proof.
  intros Hp Hb Hf. unfold_service.
  destruct (wh_code d =? "00")%string; cbv iota in Hf;
    run_with Hf; rewrite Hp; run_with Hf; rewrite Hb; run_with Hf;
    destruct (find (Booking.has_id b) (bookings w));
    destruct (filter (SeatStatus.of_booking b) (seats w));
    run_with Hf;
    (eexists; split; [reflexivity |]; cbn [payments bookings seats];
     split; [reflexivity |];
     split; [apply payments_settled |];
     split; [first [apply bookings_paid | apply bookings_cancelled] |];
     apply emitted_by_app; cbn [notified booking_notice seat_notice];
     rewrite ?app_nil_r, <- ?app_assoc; reflexivity).
Qed.

Lemma seat_update_failure_is_isolated_witness :
  exists w',
    handleWebhook paid_event (sample_env 1000 (failing 361)) sample_world
      = (Resolved processed, w') /\
    seats w' = seats sample_world /\
    Forall2 (payment_settled 12345 PaymentStatus.COMPLETED)
      (payments sample_world) (payments w') /\
    Forall2 (booking_paid 42) (bookings sample_world) (bookings w') /\
    emitted_by sample_world w' =
      [BookingStatusChanged 42 BookingStatus.PAID
         (PaymentCompleted "payos" "12345");
       SeatBooked 9 [101; 102]].
Proof.
  apply (seat_update_failure_is_isolated paid_event
           (sample_env 1000 (failing 361)) sample_world sample_payment 42);
    [reflexivity | reflexivity | intros site; reflexivity].
Defined.

Example declined_event_seat_release_fails :
  handleWebhook declined_event (sample_env 1000 (failing 431)) sample_world
  = (Resolved processed,
     mkWorld
       [Payment.with_status PaymentStatus.FAILED sample_payment]
       [Booking.cancel 1000 sample_booking]
       [seat_A; seat_B; seat_C]
       [BookingStatusChanged 42 BookingStatus.CANCELLED
          (PaymentFailed "payos" "12345" "Payment failed");
        SeatsAvailable 9 [101; 102]]).
Proof. reflexivity. Qed.

(** ** Invariants of the service monad *)

Section Keeps.

Context {St R : Type} (Inv : St -> Prop) (Q : R -> Prop).

Lemma keeps_ret {A} (N : A -> Prop) (a : A) :
  N a -> keeps Inv Q N (ret a).
Proof. intros Ha e s Hs. now split. Qed.

Lemma keeps_return {A} (N : A -> Prop) (r : R) :
  Q r -> keeps Inv Q N (return_ r).
Proof. intros Hr e s Hs. now split. Qed.

Lemma keeps_gets {A} (f : St -> A) : keeps Inv Q any (gets f).
Proof. intros e s Hs. now split. Qed.

Lemma keeps_modify (f : St -> St) :
  (forall s, Inv s -> Inv (f s)) -> keeps Inv Q any (modify f).
Proof. intros Hf e s Hs. split; [now apply Hf | exact I]. Qed.

Lemma keeps_call {A} (site : nat) (op : St -> A * St) :
  (forall s, Inv s -> Inv (snd (op s))) -> keeps Inv Q any (call site op).
Proof.
  intros Hop e s Hs. unfold call.
  destruct (faults e site); [now split |].
  specialize (Hop s Hs). destruct (op s) as [a s']. now split.
Qed.

Lemma keeps_log (site : nat) : keeps Inv Q any (log site).
Proof. apply keeps_call. auto. Qed.

Lemma keeps_bind {A B} (N : B -> Prop) (m : M St R A) (k : A -> M St R B) :
  keeps Inv Q any m -> (forall a, keeps Inv Q N (k a)) ->
  keeps Inv Q N (bind m k).
Proof.
  intros Hm Hk e s Hs. unfold bind.
  specialize (Hm e s Hs). destruct (m e s) as [[a | r | x] s'];
    cbn [fst snd] in *; [| exact Hm | exact Hm].
  apply Hk. apply Hm.
Qed.

Lemma keeps_ask {B} (N : B -> Prop) (k : Env -> M St R B) :
  (forall e, keeps Inv Q N (k e)) -> keeps Inv Q N (bind ask k).
Proof. intros Hk e s Hs. apply (Hk e e s Hs). Qed.

Lemma keeps_try_catch {A} (N : A -> Prop) (body : M St R A)
    (handler : exn -> M St R A) :
  keeps Inv Q N body -> (forall x, keeps Inv Q N (handler x)) ->
  keeps Inv Q N (try_catch body handler).
Proof.
  intros Hb Hh e s Hs. unfold try_catch.
  specialize (Hb e s Hs). destruct (body e s) as [[a | r | x] s'];
    cbn [fst snd] in *; [exact Hb | exact Hb |].
  apply Hh. apply Hb.
Qed.

End Keeps.

(** Takes a statement of the service apart, down to its calls. *)
Ltac keeps_step :=
  cbv zeta;
  match goal with
  | |- keeps _ _ _ (bind ask _) => apply keeps_ask; intros ?
  | |- keeps _ _ _ (bind _ _) => apply keeps_bind; [| intros ?]
  | |- keeps _ _ _ (try_catch _ _) => apply keeps_try_catch; [| intros ?]
  | |- keeps _ _ _ (ret _) => apply keeps_ret; exact I
  | |- keeps _ _ _ (gets _) => apply keeps_gets
  | |- keeps _ _ _ (log _) => apply keeps_log
  | |- keeps _ _ _ (match ?x with _ => _ end) => destruct x
  end.

Section FrameInvariants.

Variable P : World -> Prop.
Variable Q : WebhookResponseDto -> Prop.

Lemma keeps_in_world {A} site (op : World -> A * World) :
  (forall w, P w -> P (snd (op w))) ->
  keeps (fun f => P (world f)) Q any (call site (in_world op)).
Proof.
  intros Hop. apply keeps_call. intros f Hf. unfold in_world.
  specialize (Hop (world f) Hf). now destruct (op (world f)).
Qed.

Lemma keeps_set_payment v :
  keeps (fun f => P (world f)) Q any (modify (set_payment v)).
Proof. apply keeps_modify. auto. Qed.

Lemma keeps_set_seatStatuses v :
  keeps (fun f => P (world f)) Q any (modify (set_seatStatuses v)).
Proof. apply keeps_modify. auto. Qed.

Lemma keeps_set_booking v :
  keeps (fun f => P (world f)) Q any (modify (set_booking v)).
Proof. apply keeps_modify. auto. Qed.

End FrameInvariants.

(** The leaves of [handleWebhook]: calls on the world and assignments,
    under an invariant [P] of the world. *)
Ltac keeps_leaf P :=
  match goal with
  | |- keeps _ _ _ (call _ (in_world _)) => apply (keeps_in_world P)
  | |- keeps _ _ _ (modify (set_payment _)) => apply (keeps_set_payment P)
  | |- keeps _ _ _ (modify (set_seatStatuses _)) =>
      apply (keeps_set_seatStatuses P)
  | |- keeps _ _ _ (modify (set_booking _)) => apply (keeps_set_booking P)
  | |- keeps _ _ _ (return_ _) => apply keeps_return
  end.

(** What the [try] block of [handleWebhook] returns; it never ends
    without returning. *)
Lemma handleWebhook_try_returns d :
  keeps (fun f => True) returned none (handleWebhook_try d).
Proof.
  unfold handleWebhook_try, confirm_booking, release_booking, returned.
  repeat first [keeps_step | keeps_leaf (fun _ : World => True)]; auto.
  all: cbn; auto 6.
Qed.

(** ** Structured results *)

(** C6, counterexample.  The logger is down.  Its first call in the
    [try] block (line 264) throws, the outer handler is entered, and its
    own logger call (line 492), which no [try] encloses, throws too:
    [handleWebhook] is rejected with that error instead of resolving to
    a result. *)
Lemma handler_logger_throws :
  handleWebhook paid_event (sample_env 1000 logger_down) sample_world
  = (Rejected (Fault 492), sample_world).
Proof. reflexivity. Qed.

(** C6, amended.  Whatever the event, the world and the calls that throw
    inside the [try] block, as long as the logger call of the outer
    handler (line 492) completes, [handleWebhook] is not rejected: it
    resolves to a result [{success, message}], one of the four the block
    returns or the outer handler's.  The result is the one returned by
    the block, and when the block ends by an error that none of its own
    handlers caught, it is
    [{success: false, message: "Failed to process webhook"}]. *)
Theorem handleWebhook_resolves_unless_handler_throws d e w :
  faults e 492 = false ->
  exists r w',
    handleWebhook d e w = (Resolved r, w') /\
    structured r /\
    match fst (handleWebhook_try d e (enter w)) with
    | Normal _ => False
    | Return r' => r = r'
    | Throw _ => r = failed_to_process
    end.
Proof.
  intros Hlog.
  destruct (handleWebhook_try_returns d e (enter w) I) as [_ Hr].
  unfold handleWebhook, handleWebhook_body, invoke, try_catch.
  destruct (handleWebhook_try d e (enter w)) as [[r' | r' | x] frame];
    cbv beta iota zeta delta [log call bind ret return_ fst] in *.
  - destruct Hr.
  - do 2 eexists. split; [reflexivity |]. split; [now left | reflexivity].
  - rewrite Hlog. do 2 eexists.
    split; [reflexivity |]. split; [now right | reflexivity].
Qed.

(** The lookup of the Payment and the logger call of its handler both
    throw, the outer handler's logger completes: the result is the outer
    handler's. *)
Lemma handleWebhook_resolves_unless_handler_throws_witness :
  exists r w',
    handleWebhook paid_event
      (sample_env 1000 (fun s => Nat.eqb s 274 || Nat.eqb s 279))
      sample_world
    = (Resolved r, w') /\
    structured r /\
    r = failed_to_process.
Proof.
  exact (handleWebhook_resolves_unless_handler_throws paid_event
           (sample_env 1000 (fun s => Nat.eqb s 274 || Nat.eqb s 279))
           sample_world eq_refl).
Defined.

(** [handleWebhook] is rejected in one way only: the [try] block ends by
    an error that none of its own handlers caught, and the logger call
    of the outer handler throws.  The error is then the logger's. *)
Lemma handleWebhook_rejected_by_handler_only d e w x :
  fst (handleWebhook d e w) = Rejected x ->
  x = Fault 492 /\
  faults e 492 = true /\
  exists x', fst (handleWebhook_try d e (enter w)) = Throw x'.
Proof.
  unfold handleWebhook, handleWebhook_body, invoke, try_catch.
  destruct (handleWebhook_try d e (enter w)) as [[r' | r' | x'] frame];
    cbv beta iota zeta delta [log call bind ret return_ fst];
    try discriminate.
  destruct (faults e 492); cbv beta iota; [| discriminate].
  intros H. injection H as <-. repeat split. now exists x'.
Qed.

(** An error of the logger outside the inner [try] blocks reaches the
    outer handler. *)
Example unexpected_fault_sample :
  handleWebhook paid_event (sample_env 1000 (failing 294)) sample_world
  = (Resolved failed_to_process, sample_world).
Proof. reflexivity. Qed.

(** So does an error thrown by an inner handler: here the lookup and its
    handler's logging both throw. *)
Example handler_fault_sample :
  handleWebhook paid_event
    (sample_env 1000 (fun s => Nat.eqb s 274 || Nat.eqb s 279)) sample_world
  = (Resolved failed_to_process, sample_world).
Proof. reflexivity. Qed.

(** A failed Payment write is reported by its own handler. *)
Example payment_write_fails_sample :
  handleWebhook paid_event (sample_env 1000 (failing 302)) sample_world
  = (Resolved update_failed, sample_world).
Proof. reflexivity. Qed.

(** ** Seat references under a success event *)

Lemma seat_kept_refl l : Forall2 seat_kept l l.
Proof.
  induction l; constructor; auto. unfold seat_kept. repeat split; auto.
Qed.

Lemma seat_kept_book b l0 l :
  Forall2 seat_kept l0 l ->
  Forall2 seat_kept l0
    (update_where (SeatStatus.of_booking b) SeatStatus.book l).
Proof.
  unfold update_where.
  induction 1 as [| r0 r l0 l Hr _ IH]; simpl; constructor; auto.
  destruct (SeatStatus.of_booking b r); [| exact Hr].
  destruct Hr as (H1 & H2 & H3 & H4 & _). unfold seat_kept. simpl.
  repeat split; auto.
Qed.

Lemma paid_event_keeps_seats d (w0 : World) :
  wh_code d = "00" ->
  keeps (fun f => Forall2 seat_kept (seats w0) (seats (world f))) any none
    (handleWebhook_try d).
Proof.
  intros Hc.
  unfold handleWebhook_try, confirm_booking. rewrite Hc.
  change ("00" =? "00")%string with true. cbv iota.
  repeat first
    [ keeps_step
    | keeps_leaf (fun w => Forall2 seat_kept (seats w0) (seats w)) ];
    try exact I.
  all: try (intros w Hw; exact Hw).
  intros w Hw. apply seat_kept_book. exact Hw.
Qed.

(** C10.  Under a success event ([code = "00"]), whatever calls throw,
    every SeatStatus row keeps its identifier, seat, trip and booking
    reference: a row that referred to a Booking still refers to it.  A
    row is either as before or differs in its state, now BOOKED, and its
    lock expiry, now cleared, and in nothing else. *)
Theorem paid_event_keeps_seat_references d e w :
  wh_code d = "00" ->
  Forall2 seat_kept (seats w) (seats (snd (handleWebhook d e w))).
Proof.
  intros Hc.
  destruct (paid_event_keeps_seats d w Hc e (enter w) (seat_kept_refl _))
    as [Hbody _].
  unfold handleWebhook, handleWebhook_body, invoke, try_catch.
  destruct (handleWebhook_try d e (enter w)) as [[r | r | x] frame];
    cbv beta iota zeta delta [log call bind ret return_ fst snd] in *;
    try exact Hbody.
  destruct (faults e 492); exact Hbody.
Qed.

Lemma paid_event_keeps_seat_references_witness :
  Forall2 seat_kept (seats sample_world)
    (seats (snd (handleWebhook paid_event (sample_env 1000 quiet)
                   sample_world))).
Proof.
  apply (paid_event_keeps_seat_references paid_event (sample_env 1000 quiet)
           sample_world).
  reflexivity.
Defined.

(** The seats of the sample booking after the success event. *)
Example paid_event_seats_sample :
  map (fun s => (SeatStatus.bookingId s, SeatStatus.state s,
                 SeatStatus.lockedUntil s))
    (seats (snd (handleWebhook paid_event (sample_env 1000 quiet)
                   sample_world)))
  = [(Some 42, SeatState.BOOKED, None);
     (Some 42, SeatState.BOOKED, None);
     (None, SeatState.AVAILABLE, None)].
Proof. reflexivity. Qed.

(** ** cancelPayment *)




(** The Payment status write throws: nothing is written, the call is
    rejected. *)
Example cancel_payment_write_fails :
  cancelPayment 12345 (sample_env 1000 (failing 166)) sample_world
  = (Rejected (Fault 166), sample_world).
Proof. reflexivity. Qed.

(** The notification throws: the three tables are written, the call is
    rejected. *)
Example cancel_notification_fails :
  cancelPayment 12345 (sample_env 1000 (failing 214)) sample_world
  = (Rejected (Fault 214),
     mkWorld [Payment.with_status PaymentStatus.CANCELLED sample_payment]
       [Booking.cancel 1000 sample_booking]
       [SeatStatus.release seat_A; SeatStatus.release seat_B; seat_C] []).
Proof. reflexivity. Qed.

Example cancel_sample :
  snd (cancelPayment 12345 (sample_env 1000 quiet) sample_world)
  = mkWorld [Payment.with_status PaymentStatus.CANCELLED sample_payment]
      [Booking.cancel 1000 sample_booking]
      [SeatStatus.release seat_A; SeatStatus.release seat_B; seat_C]
      [SeatsAvailable 9 [101; 102]].
Proof. reflexivity. Qed.

(** ** createPaymentLink *)



(** X21.  The Payment row is the last thing [createPaymentLink] writes:
    whatever calls throw, the Booking and SeatStatus tables and the
    gateway calls are as before, and the Payment table is as before or
    holds one more row at its end, PENDING and for the booking of the
    request, written after the provider answered. *)
Lemma payment_row_follows_provider dto e w :
  let w' := snd (createPaymentLink dto e w) in
  bookings w' = bookings w /\ seats w' = seats w /\
  notified w' = notified w /\
  (payments w' = payments w \/
   faults e 87 = false /\
   exists row,
     payments w' = (payments w ++ [row])%list /\
     Payment.status row = PaymentStatus.PENDING /\
     Payment.bookingId row = dto_bookingId dto).
Proof.
  unfold_service.
  destruct (faults e 87) eqn:H87; cbv beta iota zeta;
    [repeat split; now left |].
  destruct (faults e 91) eqn:H91; cbv beta iota zeta;
    [repeat split; now left |].
  destruct (faults e 104) eqn:H104; cbv beta iota zeta;
    [repeat split; now left |].
  cbn [payments bookings seats notified snd].
  repeat split. right. split; [reflexivity |].
  eexists. split; [reflexivity |]. split; reflexivity.
Qed.

Example createPaymentLink_sample :
  payments (snd (createPaymentLink sample_dto (sample_env 1730549999123 quiet)
                   seatless_world))
  = [sample_payment;
     Payment.mk (Some 8) (Some 42) "PAYOS" "link-1" (JS.Num 99123042) 500000
       PaymentStatus.PENDING].
Proof. reflexivity. Qed.

(** * Further properties *)

(** ** Order codes: collisions *)

Lemma generateOrderCode_value timestamp random :
  0 <= timestamp -> 0 <= random < 1000 ->
  generateOrderCode timestamp random
  = JS.Num (timestamp mod 100000 * 1000 + random).
Proof.
  intros Hts Hr.
  assert (Htp : 0 <= timestamp mod 100000 < 100000)
    by (apply Z.mod_pos_bound; lia).
  unfold generateOrderCode. rewrite Z.rem_mod_nonneg by lia.
  destruct (pad3_spec random Hr) as (Hpall & Hplen & Hpval).
  unfold JS.toString at 1.
  destruct (timestamp mod 100000 <? 0) eqn:E; [lia |].
  destruct (digits_spec _ (proj1 Htp)) as (Hall & Hlen & Hval & _).
  rewrite parseInt_digits;
    [| now apply all_digits_app | rewrite length_append; lia].
  rewrite (dval_app _ _ _ Hall), Hval, (dval_shift _ _ Hpall), Hpval.
  unfold slen. rewrite Hplen. change (10 ^ Z.of_nat 3) with 1000.
  unfold JS.Math_min. f_equal. lia.
Qed.

(** X1.  Two order codes are equal exactly when the clock readings agree
    in their last five digits and the random draws are equal: the code
    determines both parts, and it repeats every 100000 ms for the same
    draw. *)
Theorem order_codes_equal_iff ts1 r1 ts2 r2 :
  0 <= ts1 -> 0 <= ts2 -> 0 <= r1 < 1000 -> 0 <= r2 < 1000 ->
  (generateOrderCode ts1 r1 = generateOrderCode ts2 r2 <->
   ts1 mod 100000 = ts2 mod 100000 /\ r1 = r2).
Proof.
  intros H1 H2 Hr1 Hr2.
  rewrite (generateOrderCode_value ts1 r1 H1 Hr1).
  rewrite (generateOrderCode_value ts2 r2 H2 Hr2).
  assert (0 <= ts1 mod 100000 < 100000) by (apply Z.mod_pos_bound; lia).
  assert (0 <= ts2 mod 100000 < 100000) by (apply Z.mod_pos_bound; lia).
  split.
  - intros Heq. injection Heq as Heq. lia.
  - intros [-> ->]. reflexivity.
Qed.

Lemma order_codes_equal_iff_witness :
  generateOrderCode 1730549999123 7 = generateOrderCode 1730550099123 7 <->
  1730549999123 mod 100000 = 1730550099123 mod 100000 /\ 7 = 7.
Proof.
  apply (order_codes_equal_iff 1730549999123 7 1730550099123 7); lia.
Defined.

(** A second request 100 seconds later with the same draw gets the same
    code. *)
Example order_code_repeats :
  generateOrderCode 1730549999123 7 = generateOrderCode 1730550099123 7.
Proof. reflexivity. Qed.

(** ** The constructor *)

Lemma truthy_str_spec value s :
  truthy_str value = Some s <-> value = Some s /\ s <> "".
Proof.
  unfold truthy_str. destruct value as [v |]; [| split; [discriminate |]].
  - destruct (String.eqb_spec v ""); split.
    + discriminate.
    + intros [Hv Hs]. injection Hv as ->. contradiction.
    + intros Hv. injection Hv as ->. auto.
    + intros [Hv _]. exact Hv.
  - intros [Hv _]. discriminate.
Qed.

(** X2.  The constructor builds the provider client exactly when the three
    settings PAYOS_CLIENT_ID, PAYOS_API_KEY and PAYOS_CHECKSUM_KEY are all
    present and non-empty, and then with these very values; when one of
    them is absent or empty it throws the configuration error. *)
Theorem constructor_needs_all_credentials configService :
  (forall c,
     PayosService_constructor configService = inr c <->
     (configService "PAYOS_CLIENT_ID" = Some (clientId c) /\
      clientId c <> "") /\
     (configService "PAYOS_API_KEY" = Some (apiKey c) /\ apiKey c <> "") /\
     (configService "PAYOS_CHECKSUM_KEY" = Some (checksumKey c) /\
      checksumKey c <> "")) /\
  ((exists c, PayosService_constructor configService = inr c) \/
   PayosService_constructor configService = inl configuration_missing).
Proof.
  unfold PayosService_constructor. cbv zeta. split.
  - intros [c a k]. cbn [clientId apiKey checksumKey].
    rewrite <- !truthy_str_spec.
    destruct (truthy_str (configService "PAYOS_CLIENT_ID")) as [c' |];
      destruct (truthy_str (configService "PAYOS_API_KEY")) as [a' |];
      destruct (truthy_str (configService "PAYOS_CHECKSUM_KEY")) as [k' |];
      split; try discriminate;
      try (intros (H1 & H2 & H3); discriminate).
    + intros H. injection H as -> -> ->. auto.
    + intros (H1 & H2 & H3). congruence.
  - destruct (truthy_str (configService "PAYOS_CLIENT_ID"));
      destruct (truthy_str (configService "PAYOS_API_KEY"));
      destruct (truthy_str (configService "PAYOS_CHECKSUM_KEY"));
      eauto.
Qed.

(** An empty checksum key is as good as none. *)
Example constructor_empty_key :
  PayosService_constructor
    (fun key => if (key =? "PAYOS_CHECKSUM_KEY")%string then Some ""
                else Some "secret")
  = inl configuration_missing.
Proof. reflexivity. Qed.

(** ** getPaymentInformation *)


Lemma array_index_last {A : Type} (older : list A) (t : A) :
  array_index (older ++ [t]) (Z.of_nat (List.length (older ++ [t])) - 1)
  = Some t.
Proof.
  unfold array_index. rewrite length_app. cbn [List.length].
  destruct (Z.ltb_spec (Z.of_nat (List.length older + 1) - 1) 0); [lia |].
  replace (Z.to_nat (Z.of_nat (List.length older + 1) - 1))
    with (List.length older) by lia.
  rewrite nth_error_app2 by lia. now rewrite Nat.sub_diag.
Qed.

(** X4.  When the provider answers, the account number, account name and
    description of the reply are those of the last transaction of the
    payment link, each replaced by the empty string when absent or empty;
    with no transaction at all the three are empty.  The checkout URL is
    always empty and no local payment id is given. *)
Theorem getPaymentInformation_uses_latest payos_get orderCode e w :
  faults e 125 = false ->
  exists r,
    getPaymentInformation payos_get orderCode e w = (Resolved r, w) /\
    checkoutUrl r = "" /\ paymentId r = None /\
    transactionId r = pk_id (payos_get orderCode) /\
    (forall older t,
       pk_transactions (payos_get orderCode) = Some (older ++ [t])%list ->
       accountNumber r = JS.or_str (tx_accountNumber t) "" /\
       accountName r = JS.or_str (tx_virtualAccountName t) "" /\
       description r = JS.or_str (tx_description t) "") /\
    (pk_transactions (payos_get orderCode) = None \/
     pk_transactions (payos_get orderCode) = Some [] ->
     accountNumber r = "" /\ accountName r = "" /\ description r = "").
Proof.
  intros Hf.
  unfold getPaymentInformation, getPaymentInformation_try, invoke, try_catch,
    bind, call, return_. rewrite Hf. cbv zeta.
  eexists. split; [reflexivity |].
  cbn [checkoutUrl paymentId transactionId accountNumber accountName
       description].
  repeat split; try reflexivity.
  - unfold latestTransaction. rewrite H. now rewrite array_index_last.
  - unfold latestTransaction. rewrite H. now rewrite array_index_last.
  - unfold latestTransaction. rewrite H. now rewrite array_index_last.
  - unfold latestTransaction. destruct H as [-> | ->]; reflexivity.
  - unfold latestTransaction. destruct H as [-> | ->]; reflexivity.
  - unfold latestTransaction. destruct H as [-> | ->]; reflexivity.
Qed.

Lemma getPaymentInformation_uses_latest_witness :
  exists r,
    getPaymentInformation (fun _ => sample_link) 12345
      (sample_env 1000 quiet) sample_world = (Resolved r, sample_world) /\
    accountNumber r = "222" /\ accountName r = "" /\ description r = "".
Proof.
  destruct (getPaymentInformation_uses_latest (fun _ => sample_link) 12345
              (sample_env 1000 quiet) sample_world eq_refl)
    as (r & Hrun & _ & _ & _ & Hlast & _).
  exists r. split; [exact Hrun |].
  apply (Hlast [mkTransaction (Some "111") (Some "first") (Some "old")]
               (mkTransaction (Some "222") None (Some ""))).
  reflexivity.
Defined.

(** ** verifyWebhookData *)


(** ** What the service writes *)

Lemma map_update_where_keep {A B : Type} (g : A -> B) f patch
    (table : list A) :
  (forall row, g (patch row) = g row) ->
  map g (update_where f patch table) = map g table.
Proof.
  intros H. unfold update_where. rewrite map_map. apply map_ext.
  intros row. destruct (f row); auto.
Qed.

Lemma Forall2_update_where_step {A : Type} (R : A -> A -> Prop) f patch
    (before table : list A) :
  (forall r0 r, R r0 r -> R r0 (patch r)) ->
  Forall2 R before table ->
  Forall2 R before (update_where f patch table).
Proof.
  intros H. unfold update_where.
  induction 1 as [| r0 r before table Hr _ IH]; simpl; constructor; auto.
  destruct (f r); auto.
Qed.

Lemma Forall2_refl {A : Type} (R : A -> A -> Prop) (l : list A) :
  (forall r, R r r) -> Forall2 R l l.
Proof. intros H. induction l; constructor; auto. Qed.

(** The world after [handleWebhook] is the one its [try] block leaves. *)
Lemma handleWebhook_world d e w :
  snd (handleWebhook d e w) = world (snd (handleWebhook_try d e (enter w))).
Proof.
  unfold handleWebhook, handleWebhook_body, invoke, try_catch.
  destruct (handleWebhook_try d e (enter w)) as [[r | r | x] frame];
    try reflexivity.
  cbv beta iota zeta delta [log call bind return_].
  destruct (faults e 492); reflexivity.
Qed.

(** The world after a function that logs and rethrows is the one its
    [try] block leaves. *)
Lemma rethrow_world {R : Type} (m : M World R R) e w :
  snd (invoke (try_catch m (fun error => log_handler ;; throw error)) e w)
  = snd (m e w).
Proof.
  unfold invoke, try_catch. destruct (m e w) as [[r | r | x] w'];
    reflexivity.
Qed.

(** [handleWebhook] changes the world through nine writes and in no other
    way: an invariant of the writes of the event's branch is an invariant
    of the call, whatever throws. *)
Lemma handleWebhook_writes (P : World -> Prop) d :
  let oc := wh_orderCode d in
  let paid := (wh_code d =? "00")%string in
  (forall w, P w ->
     P (snd (paymentRepository.update oc
               (Payment.with_status
                  (if paid then PaymentStatus.COMPLETED
                   else PaymentStatus.FAILED)) w))) ->
  (paid = true -> forall b w, P w ->
     P (snd (bookingRepository.update b
               (Booking.with_status BookingStatus.PAID) w))) ->
  (paid = true -> forall b w, P w ->
     P (snd (seatStatusRepository.update b SeatStatus.book w))) ->
  (paid = true -> forall b w, P w ->
     P (snd (notify (BookingStatusChanged b BookingStatus.PAID
                       (PaymentCompleted "payos" (JS.toString oc))) w))) ->
  (paid = true -> forall trip ids w, P w ->
     P (snd (notify (SeatBooked trip ids) w))) ->
  (paid = false -> forall b t w, P w ->
     P (snd (bookingRepository.update b (Booking.cancel t) w))) ->
  (paid = false -> forall b w, P w ->
     P (snd (seatStatusRepository.update b SeatStatus.release w))) ->
  (paid = false -> forall b w, P w ->
     P (snd (notify (BookingStatusChanged b BookingStatus.CANCELLED
                       (PaymentFailed "payos" (JS.toString oc)
                          "Payment failed")) w))) ->
  (paid = false -> forall trip ids w, P w ->
     P (snd (notify (SeatsAvailable trip ids) w))) ->
  forall e w, P w -> P (snd (handleWebhook d e w)).
Proof.
  cbv zeta. intros Hpay Hb1 Hs1 Hn1 Hm1 Hb0 Hs0 Hn0 Hm0 e w Hw.
  rewrite handleWebhook_world.
  assert (Hk : keeps (fun f => P (world f)) any none (handleWebhook_try d)).
  { unfold handleWebhook_try, confirm_booking, release_booking.
    destruct (wh_code d =? "00")%string;
      repeat first [keeps_step | keeps_leaf P]; try exact I;
      try (intros w' Hw'; exact Hw'); auto. }
  apply (Hk e (enter w) Hw).
Qed.

(** [cancelPayment] changes the world through four writes and in no
    other way. *)
Lemma cancelPayment_writes (P : World -> Prop) oc :
  (forall w, P w ->
     P (snd (paymentRepository.update oc
               (Payment.with_status PaymentStatus.CANCELLED) w))) ->
  (forall b t w, P w ->
     P (snd (bookingRepository.update b (Booking.cancel t) w))) ->
  (forall b w, P w ->
     P (snd (seatStatusRepository.update b SeatStatus.release w))) ->
  (forall trip ids w, P w ->
     P (snd (notify (SeatsAvailable trip ids) w))) ->
  forall e w, P w -> P (snd (cancelPayment oc e w)).
Proof.
  intros Hpay Hb Hs Hn e w Hw.
  unfold cancelPayment. rewrite rethrow_world.
  assert (Hk : keeps P any any (cancelPayment_try oc)).
  { unfold cancelPayment_try.
    repeat first
      [ keeps_step
      | match goal with
        | |- keeps _ _ _ (call _ _) => apply keeps_call
        | |- keeps _ _ _ (return_ _) => apply keeps_return; exact I
        end ];
      try exact I; try (intros w' Hw'; exact Hw'); auto. }
  apply (Hk e w Hw).
Qed.

Lemma appends_refl kind w : appends kind w w.
Proof. exists []. now rewrite app_nil_r. Qed.

Lemma appends_notify kind w0 w n :
  kind n = true -> appends kind w0 w -> appends kind w0 (snd (notify n w)).
Proof.
  intros Hn (sent & Hsent & Hkind). exists (sent ++ [n])%list.
  cbn [notify snd notified]. rewrite Hsent, <- app_assoc. split; auto.
  rewrite forallb_app, Hkind. cbn. now rewrite Hn.
Qed.

Lemma same_rows_refl w : same_rows w w.
Proof. repeat split. Qed.

(** X6.  Whatever the event and whatever throws, [handleWebhook] neither
    inserts nor deletes a row, and never writes a key column: the Payment
    rows keep their identifier, booking reference, provider, transaction
    reference, order code and amount, the Booking rows their identifier,
    the SeatStatus rows their identifier, seat and trip, all in the same
    order. *)
Theorem handleWebhook_keeps_rows d e w :
  same_rows w (snd (handleWebhook d e w)).
Proof.
  apply (handleWebhook_writes (same_rows w) d); try apply same_rows_refl;
    cbv zeta; intros;
    repeat match goal with
           | H : same_rows _ _ |- _ => destruct H as (? & ? & ?)
           end;
    unfold same_rows;
    cbn [snd paymentRepository.update bookingRepository.update
         seatStatusRepository.update notify payments bookings seats];
    rewrite ?map_update_where_keep by reflexivity; auto.
Qed.

(** X7.  Whatever throws, [cancelPayment] neither inserts nor deletes a
    row and never writes a key column of the three tables. *)
Theorem cancelPayment_keeps_rows oc e w :
  same_rows w (snd (cancelPayment oc e w)).
Proof.
  apply (cancelPayment_writes (same_rows w) oc); try apply same_rows_refl;
    intros;
    repeat match goal with
           | H : same_rows _ _ |- _ => destruct H as (? & ? & ?)
           end;
    unfold same_rows;
    cbn [snd paymentRepository.update bookingRepository.update
         seatStatusRepository.update notify payments bookings seats];
    rewrite ?map_update_where_keep by reflexivity; auto.
Qed.

(** Proves that a write keeps a conjunction of table invariants. *)
Ltac keep_tables :=
  intros;
  repeat match goal with H : _ /\ _ |- _ => destruct H end;
  cbn [snd paymentRepository.update bookingRepository.update
       seatStatusRepository.update payments bookings seats];
  repeat split;
  first
    [ assumption
    | apply Forall2_update_where_step; [| assumption];
      intros r0 r Hr
    | now apply appends_notify
    | match goal with
      | H : appends _ _ _ |- appends _ _ _ => exact H
      end
    | match goal with
      | H : Forall2 _ _ _ |- Forall2 _ _ (_ (snd (notify _ _))) => exact H
      end ].

(** X8.  Under a failure event ([code <> "00"]), whatever throws: a
    Payment row keeps its status or becomes FAILED; a Booking row is as
    before or CANCELLED with a cancellation time; a SeatStatus row is as
    before or AVAILABLE with no booking reference and no lock expiry; and
    the gateways only receive, after the earlier calls, cancellation and
    seats-available notifications.  No payment is completed, no booking
    paid and no seat booked by such an event. *)
Theorem declined_event_only_releases d e w :
  wh_code d <> "00" ->
  let w' := snd (handleWebhook d e w) in
  Forall2 (payment_at_most PaymentStatus.FAILED) (payments w) (payments w') /\
  Forall2 booking_at_most_cancelled (bookings w) (bookings w') /\
  Forall2 seat_at_most_released (seats w) (seats w') /\
  appends announces_release w w'.
Proof.
  intros Hc. apply String.eqb_neq in Hc. cbv zeta.
  apply (handleWebhook_writes
           (fun w' =>
              Forall2 (payment_at_most PaymentStatus.FAILED)
                (payments w) (payments w') /\
              Forall2 booking_at_most_cancelled (bookings w) (bookings w') /\
              Forall2 seat_at_most_released (seats w) (seats w') /\
              appends announces_release w w') d);
    cbv zeta; rewrite ?Hc; try (intros Habs; discriminate Habs);
    try (intros _); try keep_tables.
  - right. reflexivity.
  - right. split; [reflexivity | discriminate].
  - right. repeat split.
  - repeat split; try (apply Forall2_refl; intros; unfold payment_at_most,
      booking_at_most_cancelled, seat_at_most_released; auto).
    apply appends_refl.
Qed.

Lemma declined_event_only_releases_witness :
  let w' := snd (handleWebhook declined_event
                   (sample_env 1000 (failing 431)) sample_world) in
  Forall2 (payment_at_most PaymentStatus.FAILED)
    (payments sample_world) (payments w') /\
  Forall2 booking_at_most_cancelled (bookings sample_world) (bookings w') /\
  Forall2 seat_at_most_released (seats sample_world) (seats w') /\
  appends announces_release sample_world w'.
Proof.
  apply (declined_event_only_releases declined_event
           (sample_env 1000 (failing 431)) sample_world).
  discriminate.
Defined.

(** X9.  Under a success event ([code = "00"]), whatever throws: a
    Payment row keeps its status or becomes COMPLETED; a Booking row keeps
    its cancellation time, and its status or becomes PAID; and the
    gateways only receive, after the earlier calls, booking-paid and
    seat-booked notifications.  No payment is failed and no booking
    cancelled by such an event. *)
Theorem paid_event_only_confirms d e w :
  wh_code d = "00" ->
  let w' := snd (handleWebhook d e w) in
  Forall2 (payment_at_most PaymentStatus.COMPLETED)
    (payments w) (payments w') /\
  Forall2 booking_at_most_paid (bookings w) (bookings w') /\
  appends announces_payment w w'.
Proof.
  intros Hc. apply String.eqb_eq in Hc. cbv zeta.
  apply (handleWebhook_writes
           (fun w' =>
              Forall2 (payment_at_most PaymentStatus.COMPLETED)
                (payments w) (payments w') /\
              Forall2 booking_at_most_paid (bookings w) (bookings w') /\
              appends announces_payment w w') d);
    cbv zeta; rewrite ?Hc; try (intros Habs; discriminate Habs);
    try (intros _); try keep_tables.
  - right. reflexivity.
  - destruct Hr as [Hat Hst]. split; [exact Hat | now right].
  - repeat split; try (apply Forall2_refl; intros; unfold payment_at_most,
      booking_at_most_paid; auto).
    apply appends_refl.
Qed.

Lemma paid_event_only_confirms_witness :
  let w' := snd (handleWebhook paid_event
                   (sample_env 1000 (failing 348)) sample_world) in
  Forall2 (payment_at_most PaymentStatus.COMPLETED)
    (payments sample_world) (payments w') /\
  Forall2 booking_at_most_paid (bookings sample_world) (bookings w') /\
  appends announces_payment sample_world w'.
Proof.
  apply (paid_event_only_confirms paid_event
           (sample_env 1000 (failing 348)) sample_world).
  reflexivity.
Defined.

(** X10.  Whatever throws, [cancelPayment] only cancels and releases: a
    Payment row keeps its status or becomes CANCELLED; a Booking row is as
    before or CANCELLED with a cancellation time; a SeatStatus row is as
    before or AVAILABLE with no booking reference and no lock expiry; and
    the gateways only receive, after the earlier calls, seats-available
    notifications (no booking-status notification is ever sent). *)
Theorem cancelPayment_only_releases oc e w :
  let w' := snd (cancelPayment oc e w) in
  Forall2 (payment_at_most PaymentStatus.CANCELLED)
    (payments w) (payments w') /\
  Forall2 booking_at_most_cancelled (bookings w) (bookings w') /\
  Forall2 seat_at_most_released (seats w) (seats w') /\
  appends announces_seats_available w w'.
Proof.
  cbv zeta.
  apply (cancelPayment_writes
           (fun w' =>
              Forall2 (payment_at_most PaymentStatus.CANCELLED)
                (payments w) (payments w') /\
              Forall2 booking_at_most_cancelled (bookings w) (bookings w') /\
              Forall2 seat_at_most_released (seats w) (seats w') /\
              appends announces_seats_available w w') oc);
    try keep_tables.
  - right. reflexivity.
  - right. split; [reflexivity | discriminate].
  - right. repeat split.
  - repeat split; try (apply Forall2_refl; intros; unfold payment_at_most,
      booking_at_most_cancelled, seat_at_most_released; auto).
    apply appends_refl.
Qed.

(** ** cancelPayment when every call completes *)

(** Follows the unfolded service through every outcome of the oracle;
    [rw] rewrites the lookups as they come into view. *)
Ltac walk_faults e rw :=
  repeat first
    [ rw
    | progress cbv beta iota zeta
    | progress cbn [payments bookings seats notified snd fst]
    | match goal with
      | |- context [faults e ?site] => destruct (faults e site) eqn:?
      end ].

Lemma cancelPayment_quiet oc e w :
  no_faults e ->
  cancelPayment oc e w
  = (Resolved (cancel_response (payos_cancel e oc) oc), cancelled oc e w).
Proof.
  intros H. unfold cancelled, cancel_response. unfold_service. run_with H.
  destruct (find (Payment.has_order_code oc) (payments w)) as [p |];
    run_with H; [| destruct w; reflexivity].
  destruct (JS.truthy_num (Payment.bookingId p)) as [b |]; run_with H;
    [| reflexivity].
  destruct (filter (SeatStatus.of_booking b) (seats w)); run_with H;
    cbn [seat_notice]; rewrite ?app_nil_r; reflexivity.
Qed.

(** X11.  A local Payment with a Booking reference [b] exists and every
    call completes.  Then [cancelPayment] resolves; every Payment row of
    the order code is CANCELLED; every Booking row [b] is CANCELLED with
    the clock as cancellation time; every SeatStatus row that referred to
    [b] is AVAILABLE with booking reference and lock expiry cleared; all
    other rows are as before; and one [notifySeatsAvailable] is sent, for
    the trip of the first seat row found and the seats found before the
    release, when there was one, and none otherwise. *)
Theorem cancelPayment_cascades oc e w p b :
  no_faults e ->
  find (Payment.has_order_code oc) (payments w) = Some p ->
  JS.truthy_num (Payment.bookingId p) = Some b ->
  exists r w',
    cancelPayment oc e w = (Resolved r, w') /\
    Forall2 (payment_settled oc PaymentStatus.CANCELLED)
      (payments w) (payments w') /\
    Forall2 (booking_cancelled b (now e)) (bookings w) (bookings w') /\
    Forall2 (seat_released b) (seats w) (seats w') /\
    emitted_by w w'
    = seat_notice (filter (SeatStatus.of_booking b) (seats w))
        SeatsAvailable.
Proof.
  intros Hq Hp Hb. rewrite (cancelPayment_quiet oc e w Hq).
  unfold cancelled. rewrite Hp, Hb.
  do 2 eexists. split; [reflexivity |]. cbn [payments bookings seats].
  split; [apply payments_settled |].
  split; [apply bookings_cancelled |].
  split; [apply seats_released |].
  apply emitted_by_app. reflexivity.
Qed.

Lemma cancelPayment_cascades_witness :
  exists r w',
    cancelPayment 12345 (sample_env 1000 quiet) sample_world
      = (Resolved r, w') /\
    Forall2 (payment_settled 12345 PaymentStatus.CANCELLED)
      (payments sample_world) (payments w') /\
    Forall2 (booking_cancelled 42 1000) (bookings sample_world)
      (bookings w') /\
    Forall2 (seat_released 42) (seats sample_world) (seats w') /\
    emitted_by sample_world w' = [SeatsAvailable 9 [101; 102]].
Proof.
  apply (cancelPayment_cascades 12345 (sample_env 1000 quiet) sample_world
           sample_payment 42);
    [intros site; reflexivity | reflexivity | reflexivity].
Defined.


(** ** Payments without a booking *)

(** X13.  The event's order code matches a Payment that has no Booking
    reference.  Whatever throws, [handleWebhook] leaves the Booking and
    SeatStatus tables as they are and sends no notification; when every
    call completes it resolves to the success result and the Payment rows
    of the order code have the status of the event. *)
Theorem unbooked_payment_is_settled_alone d e w p :
  find (Payment.has_order_code (wh_orderCode d)) (payments w) = Some p ->
  JS.truthy_num (Payment.bookingId p) = None ->
  let w' := snd (handleWebhook d e w) in
  bookings w' = bookings w /\
  seats w' = seats w /\
  notified w' = notified w /\
  (no_faults e ->
   fst (handleWebhook d e w) = Resolved processed /\
   Forall2 (payment_settled (wh_orderCode d)
              (if (wh_code d =? "00")%string
               then PaymentStatus.COMPLETED else PaymentStatus.FAILED))
     (payments w) (payments w')).
Proof.
  intros Hp Hb. cbv zeta.
  assert (Hw : exists ps,
             snd (handleWebhook d e w)
             = mkWorld ps (bookings w) (seats w) (notified w)).
  { unfold_service. walk_faults e ltac:(first [rewrite Hp | rewrite Hb]).
    all: first [ eexists; reflexivity
               | exists (payments w); destruct w; reflexivity ]. }
  destruct Hw as [ps Hw]. rewrite Hw. cbn [bookings seats notified].
  do 3 (split; [reflexivity |]).
  intros Hq. rewrite <- Hw. rewrite (handleWebhook_quiet d e w Hq).
  unfold reconciled. rewrite Hp, Hb. cbn [fst snd payments].
  split; [reflexivity | apply payments_settled].
Qed.

Lemma unbooked_payment_is_settled_alone_witness :
  let w := mkWorld [Payment.mk (Some 7) None "PAYOS" "link-1" (JS.Num 12345)
                      500000 PaymentStatus.PENDING]
             [sample_booking] [seat_A] [] in
  let w' := snd (handleWebhook paid_event (sample_env 1000 quiet) w) in
  bookings w' = bookings w /\
  seats w' = seats w /\
  notified w' = notified w /\
  fst (handleWebhook paid_event (sample_env 1000 quiet) w)
  = Resolved processed /\
  Forall2 (payment_settled 12345 PaymentStatus.COMPLETED)
    (payments w) (payments w').
Proof.
  cbv zeta.
  destruct (unbooked_payment_is_settled_alone paid_event
              (sample_env 1000 quiet)
              (mkWorld [Payment.mk (Some 7) None "PAYOS" "link-1"
                          (JS.Num 12345) 500000 PaymentStatus.PENDING]
                 [sample_booking] [seat_A] [])
              _ eq_refl eq_refl) as (Hb & Hs & Hn & Hq).
  do 3 (split; [assumption |]). apply Hq. intros site. reflexivity.
Defined.

(** ** What an event's amount and description do *)

(** X14.  [handleWebhook] reads the order code of an event and whether
    its code is "00", and nothing else: two events that agree on these
    have the same outcome, whatever their amount, description and code
    text.  The amount of the event is never compared with the amount of
    the Payment. *)
Theorem event_amount_is_ignored d1 d2 e w :
  wh_orderCode d1 = wh_orderCode d2 ->
  (wh_code d1 = "00" <-> wh_code d2 = "00") ->
  handleWebhook d1 e w = handleWebhook d2 e w.
Proof.
  intros Hoc Hcode.
  assert (Hb : (wh_code d1 =? "00")%string = (wh_code d2 =? "00")%string).
  { destruct (String.eqb_spec (wh_code d1) "00") as [H1 | H1];
      destruct (String.eqb_spec (wh_code d2) "00") as [H2 | H2];
      try reflexivity; tauto. }
  unfold handleWebhook, handleWebhook_body, handleWebhook_try.
  cbv zeta. rewrite Hoc, Hb. reflexivity.
Qed.

Lemma event_amount_is_ignored_witness :
  handleWebhook paid_event (sample_env 1000 quiet) sample_world
  = handleWebhook (mkWebhookData 12345 1 "other" "00" "underpaid")
      (sample_env 1000 quiet) sample_world.
Proof.
  apply (event_amount_is_ignored paid_event
           (mkWebhookData 12345 1 "other" "00" "underpaid")
           (sample_env 1000 quiet) sample_world);
    [reflexivity | split; reflexivity].
Defined.


(** ** createPaymentLink when every call completes *)

(** [createPaymentLink] when every call completes. *)
Lemma createPaymentLink_quiet dto e w :
  no_faults e -> 0 <= now e -> 0 <= random e < 1000 ->
  exists r row,
    createPaymentLink dto e w
    = (Resolved r,
       mkWorld (payments w ++ [row]) (bookings w) (seats w) (notified w)) /\
    Payment.id row = Some (new_id e) /\
    paymentId r = Payment.id row /\
    Payment.bookingId row = dto_bookingId dto /\
    Payment.amount row = dto_amount dto /\
    Payment.provider row = "PAYOS" /\
    Payment.status row = PaymentStatus.PENDING /\
    Payment.transactionRef row = transactionId r /\
    Payment.payosOrderCode row
    = JS.Num (now e mod 100000 * 1000 + random e).
Proof.
  intros Hq Hnow Hrandom. unfold_service. run_with Hq.
  do 2 eexists. split; [reflexivity |].
  cbn [Payment.id Payment.with_id paymentId Payment.bookingId Payment.amount
       Payment.provider Payment.status Payment.transactionRef transactionId
       Payment.payosOrderCode].
  repeat split. now apply generateOrderCode_value.
Qed.

(** X15.  When every call completes, with a clock reading [>= 0] and a
    draw in [0, 999], [createPaymentLink] resolves and appends exactly one
    Payment row, leaving every other row as it is.  The row is PENDING,
    for provider "PAYOS", with the booking and amount of the request, the
    generated order code [now mod 100000 * 1000 + random] and the
    identifier given by the database; the reply carries that identifier
    as [paymentId] and the row's transaction reference as
    [transactionId]. *)
Theorem createPaymentLink_persists dto e w :
  no_faults e -> 0 <= now e -> 0 <= random e < 1000 ->
  exists r row,
    createPaymentLink dto e w
    = (Resolved r,
       mkWorld (payments w ++ [row]) (bookings w) (seats w) (notified w)) /\
    Payment.id row = Some (new_id e) /\
    paymentId r = Payment.id row /\
    Payment.bookingId row = dto_bookingId dto /\
    Payment.amount row = dto_amount dto /\
    Payment.provider row = "PAYOS" /\
    Payment.status row = PaymentStatus.PENDING /\
    Payment.transactionRef row = transactionId r /\
    Payment.payosOrderCode row
    = JS.Num (now e mod 100000 * 1000 + random e).
Proof. exact (createPaymentLink_quiet dto e w). Qed.

Lemma createPaymentLink_persists_witness :
  exists r row,
    createPaymentLink sample_dto (sample_env 1730549999123 quiet)
      seatless_world
    = (Resolved r,
       mkWorld (payments seatless_world ++ [row]) (bookings seatless_world)
         (seats seatless_world) (notified seatless_world)) /\
    Payment.id row = Some 8 /\
    paymentId r = Payment.id row /\
    Payment.bookingId row = Some 42 /\
    Payment.amount row = 500000 /\
    Payment.provider row = "PAYOS" /\
    Payment.status row = PaymentStatus.PENDING /\
    Payment.transactionRef row = transactionId r /\
    Payment.payosOrderCode row = JS.Num 99123042.
Proof.
  apply (createPaymentLink_persists sample_dto
           (sample_env 1730549999123 quiet) seatless_world);
    [intros site; reflexivity | cbn; lia | cbn; lia].
Defined.

(** ** One operation after another *)

Lemma find_app_unmatched {A : Type} (f : A -> bool) (table : list A) x :
  find f table = None ->
  find f (table ++ [x]) = if f x then Some x else None.
Proof.
  induction table as [| row table IH]; simpl; [reflexivity |].
  destruct (f row); [discriminate | exact IH].
Qed.

Lemma update_where_unmatched {A : Type} (f : A -> bool) patch
    (table : list A) :
  find f table = None -> update_where f patch table = table.
Proof.
  unfold update_where.
  induction table as [| row table IH]; simpl; [reflexivity |].
  destruct (f row); [discriminate |]. intros H. now rewrite IH.
Qed.

Lemma update_where_app {A : Type} (f : A -> bool) patch (l l' : list A) :
  update_where f patch (l ++ l')
  = (update_where f patch l ++ update_where f patch l')%list.
Proof. unfold update_where. apply map_app. Qed.

(** X16.  A payment link is created (every call completing, clock and
    draw in range) while no Payment row has the generated order code, and
    then the success event for that code arrives (every call completing).
    The event finds the created row and no other: the Payment table is the
    earlier rows, untouched, followed by the created row, now COMPLETED,
    and [handleWebhook] resolves to the success result; when the request
    named a booking, that Booking is PAID. *)
Theorem created_payment_is_completed dto d e1 e2 w :
  no_faults e1 -> no_faults e2 ->
  0 <= now e1 -> 0 <= random e1 < 1000 ->
  wh_orderCode d = now e1 mod 100000 * 1000 + random e1 ->
  wh_code d = "00" ->
  find (Payment.has_order_code (wh_orderCode d)) (payments w) = None ->
  let w1 := snd (createPaymentLink dto e1 w) in
  let w2 := snd (handleWebhook d e2 w1) in
  exists row,
    payments w1 = (payments w ++ [row])%list /\
    Payment.status row = PaymentStatus.PENDING /\
    fst (handleWebhook d e2 w1) = Resolved processed /\
    payments w2
    = (payments w ++ [Payment.with_status PaymentStatus.COMPLETED row])%list /\
    (forall b,
       JS.truthy_num (dto_bookingId dto) = Some b ->
       Forall2 (booking_paid b) (bookings w) (bookings w2)).
Proof.
  intros Hq1 Hq2 Hnow Hrandom Hoc Hc Hnone. cbv zeta.
  destruct (createPaymentLink_quiet dto e1 w Hq1 Hnow Hrandom)
    as (r & row & Hrun & _ & _ & Hbk & _ & _ & Hst & _ & Hcode).
  rewrite Hrun. cbn [snd payments].
  assert (Hmatch : Payment.has_order_code (wh_orderCode d) row = true).
  { apply has_order_code_spec. now rewrite Hcode, Hoc. }
  exists row. split; [reflexivity |]. split; [exact Hst |].
  rewrite (handleWebhook_quiet d e2 _ Hq2). unfold reconciled.
  cbn [payments bookings seats notified].
  rewrite (find_app_unmatched _ _ row Hnone), Hmatch.
  apply String.eqb_eq in Hc. rewrite Hc.
  rewrite update_where_app, (update_where_unmatched _ _ _ Hnone).
  cbn [update_where map]. rewrite Hmatch.
  destruct (JS.truthy_num (Payment.bookingId row)) as [b |] eqn:Hb;
    cbn [fst snd payments bookings];
    (split; [reflexivity |]); (split; [reflexivity |]);
    intros b' Hb'; rewrite Hbk in Hb; rewrite Hb' in Hb;
    [| discriminate].
  injection Hb as <-. apply bookings_paid.
Qed.

Lemma created_payment_is_completed_witness :
  let e1 := sample_env 1730549999123 quiet in
  let d := mkWebhookData 99123042 500000 "ticket" "00" "success" in
  let w1 := snd (createPaymentLink sample_dto e1 sample_world) in
  let w2 := snd (handleWebhook d (sample_env 1730550000000 quiet) w1) in
  exists row,
    payments w1 = (payments sample_world ++ [row])%list /\
    Payment.status row = PaymentStatus.PENDING /\
    fst (handleWebhook d (sample_env 1730550000000 quiet) w1)
    = Resolved processed /\
    payments w2
    = (payments sample_world
       ++ [Payment.with_status PaymentStatus.COMPLETED row])%list /\
    (forall b,
       JS.truthy_num (dto_bookingId sample_dto) = Some b ->
       Forall2 (booking_paid b) (bookings sample_world) (bookings w2)).
Proof.
  apply (created_payment_is_completed sample_dto
           (mkWebhookData 99123042 500000 "ticket" "00" "success")
           (sample_env 1730549999123 quiet)
           (sample_env 1730550000000 quiet) sample_world);
    try (intros site; reflexivity); try reflexivity; cbn; lia.
Defined.

Lemma filter_update_where_kept {A : Type} (f : A -> bool) patch
    (table : list A) :
  (forall row, f (patch row) = f row) ->
  filter f (update_where f patch table) = map patch (filter f table).
Proof.
  intros Hf. unfold update_where.
  induction table as [| row table IH]; simpl; [reflexivity |].
  destruct (f row) eqn:E; [rewrite Hf, E; simpl; now rewrite IH |].
  now rewrite E.
Qed.

Lemma filter_update_where_gone {A : Type} (f : A -> bool) patch
    (table : list A) :
  (forall row, f (patch row) = false) ->
  filter f (update_where f patch table) = [].
Proof.
  intros Hf. unfold update_where.
  induction table as [| row table IH]; simpl; [reflexivity |].
  destruct (f row) eqn:E; [now rewrite Hf | now rewrite E].
Qed.

Lemma update_where_after_gone {A : Type} (f : A -> bool) patch patch'
    (table : list A) :
  (forall row, f (patch row) = false) ->
  update_where f patch' (update_where f patch table)
  = update_where f patch table.
Proof.
  intros Hf. unfold update_where. rewrite map_map. apply map_ext.
  intros row. destruct (f row) eqn:E; [now rewrite Hf | now rewrite E].
Qed.

Lemma Forall2_update_where_twice {A : Type} (R : A -> A -> Prop)
    (f : A -> bool) (patch patch' : A -> A) (table : list A) :
  (forall row, f (patch row) = f row) ->
  (forall row, R row (if f row then patch' (patch row) else row)) ->
  Forall2 R table (update_where f patch' (update_where f patch table)).
Proof.
  intros Hf HR. unfold update_where. rewrite map_map.
  induction table as [| row table IH]; simpl; constructor; auto.
  specialize (HR row). destruct (f row) eqn:E; [now rewrite Hf, E |].
  now rewrite E.
Qed.

Lemma seat_notice_book l n :
  seat_notice (map SeatStatus.book l) n = seat_notice l n.
Proof.
  destruct l as [| first rest]; [reflexivity |].
  cbn [map seat_notice]. f_equal. cbn [SeatStatus.book SeatStatus.tripId].
  f_equal. cbn [map SeatStatus.seatId]. f_equal. rewrite map_map.
  apply map_ext. reflexivity.
Qed.

(** X17.  A success event settles a payment with a Booking reference [b]
    and afterwards the payment is cancelled (every call completing in
    both).  [cancelPayment] does not look at what the rows have become:
    the Payment rows of the order code end CANCELLED, the Booking row [b]
    CANCELLED at the time of the cancellation, and the seats of [b],
    BOOKED by the event, are released; the seats-available notification
    names the seats the event had booked. *)
Theorem cancel_after_paid_event d oc e1 e2 w p b :
  no_faults e1 -> no_faults e2 ->
  wh_orderCode d = oc -> wh_code d = "00" ->
  find (Payment.has_order_code oc) (payments w) = Some p ->
  JS.truthy_num (Payment.bookingId p) = Some b ->
  let w1 := snd (handleWebhook d e1 w) in
  let w2 := snd (cancelPayment oc e2 w1) in
  Forall2 (seat_booked b) (seats w) (seats w1) /\
  Forall2 (payment_settled oc PaymentStatus.CANCELLED)
    (payments w) (payments w2) /\
  Forall2 (booking_cancelled b (now e2)) (bookings w) (bookings w2) /\
  Forall2 (seat_released b) (seats w) (seats w2) /\
  emitted_by w1 w2
  = seat_notice (filter (SeatStatus.of_booking b) (seats w)) SeatsAvailable.
Proof.
  intros Hq1 Hq2 <- Hc Hp Hb. cbv zeta. apply String.eqb_eq in Hc.
  rewrite (handleWebhook_quiet d e1 w Hq1).
  rewrite (cancelPayment_quiet _ e2 _ Hq2).
  unfold reconciled. rewrite Hp, Hb, Hc. cbn [snd].
  unfold cancelled. cbn [payments bookings seats notified].
  rewrite (find_settled _ _ _ _ Hp).
  cbn [Payment.with_status Payment.bookingId]. rewrite Hb.
  cbn [payments bookings seats notified].
  rewrite !update_where_twice by reflexivity.
  split; [apply seats_booked |].
  split; [apply payments_settled |].
  split; [apply bookings_cancelled |].
  split; [apply seats_released |].
  rewrite filter_update_where_kept by reflexivity.
  rewrite seat_notice_book.
  unfold emitted_by. cbn [notified].
  rewrite skipn_app, skipn_all, Nat.sub_diag. reflexivity.
Qed.

Lemma cancel_after_paid_event_witness :
  let w1 := snd (handleWebhook paid_event (sample_env 1000 quiet)
                   sample_world) in
  let w2 := snd (cancelPayment 12345 (sample_env 2000 quiet) w1) in
  Forall2 (seat_booked 42) (seats sample_world) (seats w1) /\
  Forall2 (payment_settled 12345 PaymentStatus.CANCELLED)
    (payments sample_world) (payments w2) /\
  Forall2 (booking_cancelled 42 2000) (bookings sample_world)
    (bookings w2) /\
  Forall2 (seat_released 42) (seats sample_world) (seats w2) /\
  emitted_by w1 w2 = [SeatsAvailable 9 [101; 102]].
Proof.
  apply (cancel_after_paid_event paid_event 12345 (sample_env 1000 quiet)
           (sample_env 2000 quiet) sample_world sample_payment 42);
    try (intros site; reflexivity); reflexivity.
Defined.

(** X18.  A payment with a Booking reference [b] is cancelled and
    afterwards its success event arrives (every call completing in both).
    [handleWebhook] does not look at the Payment's status: the Payment
    rows of the order code end COMPLETED and the Booking row [b] PAID,
    still carrying the cancellation time; the seats released by the
    cancellation stay AVAILABLE without a booking reference, so the paid
    booking holds no seat; the booking-paid notification is sent when the
    Booking row exists, and no seat-booked notification is sent. *)
Theorem paid_event_after_cancel d oc e1 e2 w p b :
  no_faults e1 -> no_faults e2 ->
  wh_orderCode d = oc -> wh_code d = "00" ->
  find (Payment.has_order_code oc) (payments w) = Some p ->
  JS.truthy_num (Payment.bookingId p) = Some b ->
  let w1 := snd (cancelPayment oc e1 w) in
  let w2 := snd (handleWebhook d e2 w1) in
  fst (handleWebhook d e2 w1) = Resolved processed /\
  Forall2 (payment_settled oc PaymentStatus.COMPLETED)
    (payments w) (payments w2) /\
  Forall2 (booking_paid_after_cancel b (now e1)) (bookings w) (bookings w2) /\
  Forall2 (seat_released b) (seats w) (seats w2) /\
  emitted_by w1 w2
  = booking_notice (find (Booking.has_id b) (bookings w))
      (BookingStatusChanged b BookingStatus.PAID
         (PaymentCompleted "payos" (JS.toString oc))).
Proof.
  intros Hq1 Hq2 <- Hc Hp Hb. cbv zeta. apply String.eqb_eq in Hc.
  rewrite (cancelPayment_quiet _ e1 w Hq1). cbn [snd].
  rewrite (handleWebhook_quiet d e2 _ Hq2).
  unfold cancelled. rewrite Hp, Hb.
  unfold reconciled. cbn [payments bookings seats notified].
  rewrite (find_settled _ _ _ _ Hp).
  cbn [Payment.with_status Payment.bookingId]. rewrite Hb, Hc.
  cbn [fst snd payments bookings seats notified].
  rewrite (update_where_twice (Payment.has_order_code (wh_orderCode d)))
    by reflexivity.
  rewrite (update_where_after_gone (SeatStatus.of_booking b))
    by reflexivity.
  rewrite filter_update_where_gone by reflexivity.
  split; [reflexivity |].
  split; [apply payments_settled |].
  split.
  { apply Forall2_update_where_twice; [reflexivity |].
    intros bk. unfold booking_paid_after_cancel.
    destruct (Booking.has_id b bk) eqn:E; cbn.
    - split; [reflexivity |]. split; [auto |].
      intros Hne. apply has_id_spec in E. contradiction.
    - split; [reflexivity |]. split; [| reflexivity].
      intros Heq. apply has_id_spec in Heq. congruence. }
  split; [apply seats_released |].
  unfold emitted_by. cbn [notified seat_notice].
  rewrite skipn_app, skipn_all, Nat.sub_diag, app_nil_r.
  unfold booking_notice at 1.
  rewrite find_update_where by reflexivity.
  now destruct (find (Booking.has_id b) (bookings w)).
Qed.

Lemma paid_event_after_cancel_witness :
  let w1 := snd (cancelPayment 12345 (sample_env 1000 quiet) sample_world) in
  let w2 := snd (handleWebhook paid_event (sample_env 2000 quiet) w1) in
  fst (handleWebhook paid_event (sample_env 2000 quiet) w1)
  = Resolved processed /\
  Forall2 (payment_settled 12345 PaymentStatus.COMPLETED)
    (payments sample_world) (payments w2) /\
  Forall2 (booking_paid_after_cancel 42 1000) (bookings sample_world)
    (bookings w2) /\
  Forall2 (seat_released 42) (seats sample_world) (seats w2) /\
  emitted_by w1 w2
  = [BookingStatusChanged 42 BookingStatus.PAID
       (PaymentCompleted "payos" "12345")].
Proof.
  apply (paid_event_after_cancel paid_event 12345 (sample_env 1000 quiet)
           (sample_env 2000 quiet) sample_world sample_payment 42);
    try (intros site; reflexivity); reflexivity.
Defined.

(** The sample booking after cancellation and a late success event: PAID,
    cancelled at 1000, with no seat. *)
Example late_paid_event_sample :
  let w1 := snd (cancelPayment 12345 (sample_env 1000 quiet) sample_world) in
  let w2 := snd (handleWebhook paid_event (sample_env 2000 quiet) w1) in
  bookings w2 = [Booking.mk 42 BookingStatus.PAID (Some 1000)] /\
  filter (SeatStatus.of_booking 42) (seats w2) = [].
Proof. split; reflexivity. Qed.

(** ** What the result of handleWebhook tells *)

Section Triples.

Context {St R : Type} (Q : R -> St -> Prop).

Lemma triple_bind {A B} (P : St -> Prop) (N1 : A -> St -> Prop)
    (N2 : B -> St -> Prop) (E : St -> Prop)
    (m : M St R A) (k : A -> M St R B) :
  triple P m N1 Q E -> (forall a, triple (N1 a) (k a) N2 Q E) ->
  triple P (bind m k) N2 Q E.
Proof.
  intros Hm Hk e s Hs. unfold bind. specialize (Hm e s Hs).
  destruct (m e s) as [[a | r | x] s']; auto. now apply Hk.
Qed.

Lemma triple_try {A} (P : St -> Prop) (N : A -> St -> Prop)
    (E1 E : St -> Prop) (body : M St R A) (handler : exn -> M St R A) :
  triple P body N Q E1 -> (forall x, triple E1 (handler x) N Q E) ->
  triple P (try_catch body handler) N Q E.
Proof.
  intros Hb Hh e s Hs. unfold try_catch. specialize (Hb e s Hs).
  destruct (body e s) as [[a | r | x] s']; auto. now apply Hh.
Qed.

Lemma triple_call {A} (P : St -> Prop) (N : A -> St -> Prop)
    (E : St -> Prop) site (op : St -> A * St) :
  (forall s, P s -> E s /\ N (fst (op s)) (snd (op s))) ->
  triple P (call site op) N Q E.
Proof.
  intros H e s Hs. unfold call. destruct (H s Hs) as [HE HN].
  destruct (faults e site); [exact HE |]. now destruct (op s).
Qed.

Lemma triple_log (P : St -> Prop) (N : unit -> St -> Prop)
    (E : St -> Prop) site :
  (forall s, P s -> E s) -> (forall s, P s -> N tt s) ->
  triple P (log site) N Q E.
Proof. intros HE HN. apply triple_call. intros s Hs. split; auto. Qed.

Lemma triple_return {A} (P : St -> Prop) (N : A -> St -> Prop)
    (E : St -> Prop) r :
  (forall s, P s -> Q r s) -> triple P (return_ r) N Q E.
Proof. intros H e s Hs. now apply H. Qed.

Lemma triple_gets {A} (P : St -> Prop) (E : St -> Prop) (f : St -> A) :
  triple P (gets f) (fun a s => P s /\ a = f s) Q E.
Proof. intros e s Hs. now split. Qed.

Lemma triple_modify (P : St -> Prop) (N : unit -> St -> Prop)
    (E : St -> Prop) (f : St -> St) :
  (forall s, P s -> N tt (f s)) -> triple P (modify f) N Q E.
Proof. intros H e s Hs. now apply H. Qed.

Lemma triple_keeps {A} (Inv : St -> Prop) (Q0 : R -> Prop)
    (E : St -> Prop) (m : M St R A) :
  keeps Inv Q0 any m ->
  (forall s, Inv s -> E s) ->
  (forall r s, Inv s -> Q0 r -> Q r s) ->
  triple Inv m (fun _ s => Inv s) Q E.
Proof.
  intros Hk HE HQ e s Hs. destruct (Hk e s Hs) as [Hinv Hres].
  destruct (m e s) as [[a | r | x] s']; cbn [fst snd] in *; auto.
Qed.

Lemma triple_assume {A} (P : St -> Prop) (fact : Prop)
    (N : A -> St -> Prop) (E : St -> Prop) (m : M St R A) :
  (fact -> triple P m N Q E) ->
  triple (fun s => P s /\ fact) m N Q E.
Proof. intros H e s [Hs Hf]. now apply H. Qed.

End Triples.

(** After the Payment write, [handleWebhook] leaves the Payment table
    alone. *)
Lemma booking_steps_keep_payments (ps : list Payment.t) (paid : bool)
    oc (booking_ref : option Z) :
  keeps (fun f => payments (world f) = ps) none any
    (match booking_ref with
     | Some bookingId =>
         log 319 ;;
         try_catch
           (found <- call 324 (in_world
                                 (seatStatusRepository.find bookingId)) ;;
            modify (set_seatStatuses found) ;;
            log 328)
           (fun seatError => log 330) ;;
         try_catch
           (found <- call 336 (in_world
                                 (bookingRepository.findOne bookingId)) ;;
            modify (set_booking found) ;;
            log 340)
           (fun bookingError => log 342) ;;
         if paid then confirm_booking oc bookingId
         else release_booking oc bookingId
     | None => ret tt
     end : M Frame WebhookResponseDto unit).
Proof.
  unfold confirm_booking, release_booking.
  destruct paid;
    repeat first
      [ keeps_step | keeps_leaf (fun w : World => payments w = ps) ];
    try exact I; intros w' Hw'; exact Hw'.
Qed.

(** Settles what a given result tells. *)
Ltac told :=
  unfold told_by;
  repeat match goal with
         | |- _ /\ _ => split
         | |- _ -> _ => intros ?
         | H : _ \/ _ |- _ => destruct H
         | H : _ /\ _ |- _ => destruct H
         end;
  try discriminate; auto.

Lemma handleWebhook_try_tells d w :
  triple (fun f => f = enter w) (handleWebhook_try d)
    (fun _ _ => False) (fun r f => told_by d w r (world f))
    (fun _ => True).
Proof.
  unfold handleWebhook_try. cbv zeta.
  set (oc := wh_orderCode d). set (paid := (wh_code d =? "00")%string).
  set (st := if paid then PaymentStatus.COMPLETED else PaymentStatus.FAILED).
  set (found := find (Payment.has_order_code oc) (payments w)).
  apply (triple_bind _ _ (fun _ f => f = enter w));
    [apply triple_log; auto | intros _].
  apply (triple_bind _ _ (fun _ f => f = enter w));
    [apply triple_log; auto | intros _].
  apply (triple_bind _ _ (fun _ f => f = set_payment found (enter w))).
  { apply (triple_try _ _ _ (fun f => world f = w)).
    - apply (triple_bind _ _ (fun a f => f = enter w /\ a = found)).
      { apply triple_call. intros s ->. repeat split. }
      intros a.
      apply (triple_bind _ _ (fun _ f => f = set_payment found (enter w))).
      { apply triple_modify. intros s [-> ->]. reflexivity. }
      intros _. apply triple_log; auto. intros s ->. reflexivity.
    - intros x.
      apply (triple_bind _ _ (fun _ f => world f = w));
        [apply triple_log; auto | intros _].
      apply triple_return. intros s Hs. told. }
  intros _.
  apply (triple_bind _ _
           (fun a f => f = set_payment found (enter w) /\ a = found)).
  { intros e s ->. cbn. auto. }
  intros a. apply triple_assume. intros ->.
  destruct found as [p |] eqn:Hfound.
  2:{ apply (triple_bind _ _ (fun _ f => world f = w)).
      { apply triple_log; auto. intros s ->. reflexivity. }
      intros _. apply triple_return. intros s Hs. unfold told_by.
      repeat split; try discriminate. all: intros; exact Hs. }
  set (written :=
         update_where (Payment.has_order_code oc) (Payment.with_status st)
           (payments w)).
  apply (triple_bind _ _ (fun _ f => f = set_payment (Some p) (enter w)));
    [apply triple_log; auto | intros _].
  apply (triple_bind _ _ (fun _ f => payments (world f) = written)).
  { apply (triple_try _ _ _
             (fun f => bookings (world f) = bookings w /\
                       seats (world f) = seats w /\
                       notified (world f) = notified w)).
    - apply (triple_bind _ _ (fun _ f =>
               payments (world f) = written /\
               bookings (world f) = bookings w /\
               seats (world f) = seats w /\
               notified (world f) = notified w)).
      { apply triple_call. intros s ->. repeat split. }
      intros _. apply triple_log; tauto.
    - intros x.
      apply (triple_bind _ _
               (fun _ f => bookings (world f) = bookings w /\
                           seats (world f) = seats w /\
                           notified (world f) = notified w));
        [apply triple_log; auto | intros _].
      apply triple_return. intros s Hs. told. }
  intros _.
  apply (triple_bind _ _ (fun _ f => payments (world f) = written)).
  { apply (triple_keeps _ _ none); auto.
    - apply booking_steps_keep_payments.
    - intros r s _ []. }
  intros _. apply triple_return. intros s Hs. told.
  - eauto.
  - rewrite Hs. apply payments_settled.
Qed.

(** X19.  Whatever throws, the result of [handleWebhook] can be trusted
    about the Payment: the success result is only given after the Payment
    rows of the order code have been written with the status of the event
    (and a Payment was found); the "not found" and "database error"
    results are only given when nothing at all was written or sent; the
    "failed to update payment status" result is only given when no Booking
    or SeatStatus row was written and no notification sent. *)
Theorem result_tells_what_was_written d e w r w' :
  handleWebhook d e w = (Resolved r, w') ->
  told_by d w r w'.
Proof.
  pose proof (handleWebhook_try_tells d w e (enter w) eq_refl) as Htry.
  unfold handleWebhook, handleWebhook_body, invoke, try_catch.
  destruct (handleWebhook_try d e (enter w)) as [[a | r' | x] frame];
    cbv beta iota zeta delta [log call bind ret return_].
  - destruct Htry.
  - intros Hrun. injection Hrun as <- <-. exact Htry.
  - destruct (faults e 492); intros Hrun; [discriminate Hrun |].
    injection Hrun as <- <-. told.
Qed.

Lemma result_tells_what_was_written_witness :
  told_by paid_event sample_world processed
    (snd (handleWebhook paid_event (sample_env 1000 (failing 361))
            sample_world)).
Proof.
  apply (result_tells_what_was_written paid_event
           (sample_env 1000 (failing 361)) sample_world).
  reflexivity.
Defined.

(** The log call after the Payment write throws: the result says the
    update failed although the status is written. *)
Example written_but_reported_failed :
  handleWebhook paid_event (sample_env 1000 (failing 306)) sample_world
  = (Resolved update_failed,
     mkWorld [Payment.with_status PaymentStatus.COMPLETED sample_payment]
       [sample_booking] [seat_A; seat_B; seat_C] []).
Proof. reflexivity. Qed.

(** ** One call to each gateway *)

Section Quiet.

Context {St R : Type} (Q : R -> St -> Prop).

Lemma triple_quiet {A} (Inv : St -> Prop) (Q0 : R -> Prop)
    (N : A -> St -> Prop) (E : St -> Prop) (m : M St R A) :
  keeps Inv Q0 any m ->
  (forall s, Inv s -> E s) ->
  (forall r s, Inv s -> Q0 r -> Q r s) ->
  (forall a s, Inv s -> N a s) ->
  triple Inv m N Q E.
Proof.
  intros Hk HE HQ HN e s Hs. destruct (Hk e s Hs) as [Hinv Hres].
  destruct (m e s) as [[a | r | x] s']; cbn [fst snd] in *; auto.
Qed.

Lemma triple_ask {B} (P : St -> Prop) (N : B -> St -> Prop)
    (E : St -> Prop) (k : Env -> M St R B) :
  (forall e, triple P (k e) N Q E) -> triple P (bind ask k) N Q E.
Proof. intros Hk e s Hs. apply (Hk e e s Hs). Qed.

End Quiet.

(** A notification in its [try] block: sent or not, the handler only
    logs. *)
Lemma triple_notify (Q : WebhookResponseDto -> Frame -> Prop)
    (P P' F : World -> Prop) n site1 site2 site3 :
  (forall w, P w -> P' w) ->
  (forall w, P w -> P' (snd (notify n w))) ->
  (forall w, P' w -> F w) ->
  triple (fun f => P (world f))
    (try_catch (call site1 (in_world (notify n)) ;; log site2)
       (fun _ => log site3))
    (fun _ f => P' (world f)) Q (fun f => F (world f)).
Proof.
  intros Hskip Hsent Hend e f Hf.
  cbv beta iota zeta delta [try_catch bind call log in_world].
  destruct (faults e site1); [destruct (faults e site3); auto |].
  cbn [notify world fst snd].
  specialize (Hsent _ Hf). cbn [notify snd] in Hsent.
  destruct (faults e site2); [destruct (faults e site3) |]; cbn [world]; auto.
Qed.

Lemma at_most_one_nil kind : at_most_one kind [].
Proof. split; [cbn; lia | reflexivity]. Qed.

Lemma at_most_one_single kind n : kind n = true -> at_most_one kind [n].
Proof. intros H. split; [cbn; lia | cbn; now rewrite H]. Qed.

(** A statement that sends nothing, under the invariant [P] of the
    world. *)
Ltac quiet P :=
  apply (triple_bind _ _ (fun _ f => P (world f)));
  [ apply (triple_quiet _ _ any);
    [ repeat first [keeps_step | keeps_leaf P];
      try exact I; try (intros ? ?; assumption)
    | auto | auto | auto ]
  | intros ? ].

(** X20.  Whatever the event and whatever throws, one call of
    [handleWebhook] calls the booking gateway at most once and then the
    seat gateway at most once; the earlier gateway calls are left as they
    are. *)
Theorem handleWebhook_notifies_once d e w :
  notified_once w (snd (handleWebhook d e w)).
Proof.
  set (P0 := fun w' : World => notified w' = notified w).
  set (P1 := fun w' : World =>
               exists sent, notified w' = (notified w ++ sent)%list /\
                            at_most_one to_booking_gateway sent).
  set (P2 := notified_once w).
  assert (H01 : forall w', P0 w' -> P1 w').
  { intros w' Hw'. exists []. rewrite app_nil_r.
    split; [exact Hw' | apply at_most_one_nil]. }
  assert (H12 : forall w', P1 w' -> P2 w').
  { intros w' (sent & Hw' & Hone). exists sent, []. rewrite app_nil_r.
    split; [exact Hw' |]. split; [exact Hone | apply at_most_one_nil]. }
  assert (H02 : forall w', P0 w' -> P2 w') by auto.
  assert (Hb : forall n w', to_booking_gateway n = true ->
                 P0 w' -> P1 (snd (notify n w'))).
  { intros n w' Hn Hw'. exists [n]. cbn [notify snd notified].
    rewrite Hw'. split; [reflexivity | now apply at_most_one_single]. }
  assert (Hs : forall n w', to_seat_gateway n = true ->
                 P1 w' -> P2 (snd (notify n w'))).
  { intros n w' Hn (sent & Hw' & Hone). exists sent, [n].
    cbn [notify snd notified]. rewrite Hw', <- app_assoc.
    split; [reflexivity |].
    split; [exact Hone | now apply at_most_one_single]. }
  assert (Htry : triple (fun f => P0 (world f)) (handleWebhook_try d)
                   (fun _ f => P2 (world f)) (fun _ f => P2 (world f))
                   (fun f => P2 (world f))).
  { unfold handleWebhook_try. cbv zeta.
    quiet P0. quiet P0. quiet P0. quiet P0.
    match goal with |- triple _ (match ?x with _ => _ end) _ _ _ =>
      destruct x as [p |] end.
    2:{ apply (triple_quiet _ _ any);
          [repeat first [keeps_step | keeps_leaf P0]; exact I
          | auto | auto | auto]. }
    quiet P0. quiet P0.
    apply (triple_bind _ _ (fun _ f => P2 (world f)));
      [| intros _; apply triple_return; auto].
    destruct (JS.truthy_num (Payment.bookingId p)) as [b |].
    2:{ apply (triple_quiet _ _ any);
          [repeat first [keeps_step | keeps_leaf P0]; exact I
          | auto | auto | auto]. }
    quiet P0. quiet P0. quiet P0.
    destruct (wh_code d =? "00")%string;
      [ unfold confirm_booking
      | unfold release_booking; apply triple_ask; intros ? ];
      quiet P0; quiet P0; quiet P0.
    all: apply (triple_bind _ _ (fun _ f => P1 (world f)));
      [ match goal with |- triple _ (match ?x with _ => _ end) _ _ _ =>
          destruct x end;
        [ apply (triple_notify _ P0 P1 P2); auto
        | apply (triple_quiet _ _ any);
          [apply keeps_log | auto | auto | auto] ]
      | intros _ ];
      quiet P1;
      match goal with |- triple _ (match ?x with _ => _ end) _ _ _ =>
        destruct x as [[| first rest] |] end;
      first
        [ apply (triple_notify _ P1 P2 P2); auto
        | apply (triple_quiet _ _ any);
          [apply keeps_log | auto | auto | auto] ]. }
  rewrite handleWebhook_world.
  specialize (Htry e (enter w) eq_refl).
  destruct (handleWebhook_try d e (enter w)) as [[a | r | x] frame];
    exact Htry.
Qed.

(** Both notifications throw nothing and are sent once each; the seat
    update failing in between changes nothing to that. *)
Example notifies_once_sample :
  notified (snd (handleWebhook paid_event (sample_env 1000 (failing 361))
                   sample_world))
  = [BookingStatusChanged 42 BookingStatus.PAID
       (PaymentCompleted "payos" "12345");
     SeatBooked 9 [101; 102]].
Proof. reflexivity. Qed.
